(** * Polestar sensor platform: value formatting of [sensor.py]

    A shallow embedding of [custom_components/polestar_api/sensor.py]:
    the static descriptor table, the [PolestarSensor] entity, its [state]
    read accessor, its [unique_id] and its [async_update] cycle, over a
    model of the Python values and built-ins the module relies on. *)

From Stdlib Require Import ZArith List String Ascii Bool Lia SpecFloat.
Import ListNotations.
Open Scope string_scope.
Open Scope Z_scope.

(** ** Exceptions and fallible results *)

(** The exception classes the module can meet.  [OtherException] stands for
    any further subclass of [Exception] (a network or parsing failure raised
    by the API client); the last three derive from [BaseException] only. *)
Inductive exn : Type :=
| TypeError
| ValueError
| ZeroDivisionError
| OverflowError
| OtherException (name : string)
| CancelledError
| KeyboardInterrupt
| SystemExit.

(** [isinstance(e, Exception)], the test of an [except Exception:] clause. *)
Definition isinstance_Exception (e : exn) : bool :=
  match e with
  | CancelledError | KeyboardInterrupt | SystemExit => false
  | _ => true
  end.

Inductive result (A : Type) : Type :=
| Ok (a : A)
| Raise (e : exn).
Arguments Ok {A} a.
Arguments Raise {A} e.

Definition rbind {A B : Type} (r : result A) (k : A -> result B) : result B :=
  match r with
  | Ok a => k a
  | Raise e => Raise e
  end.

Declare Scope result_scope.
Delimit Scope result_scope with result.
Notation "x <- r ;; k" := (rbind r (fun x => k))
  (at level 100, r at next level, right associativity) : result_scope.

(** ** Python floats: IEEE 754 binary64 over [spec_float] *)

Module PyFloat.

Definition prec : Z := 53.
Definition emax : Z := 1024.

Definition float : Type := spec_float.

Definition is_inf (f : float) : bool :=
  match f with S754_infinity _ => true | _ => false end.

(** An integer as an exact, not yet rounded, operand. *)
Definition exact (z : Z) : float :=
  match z with
  | Z0 => S754_zero false
  | Zpos p => S754_finite false p 0
  | Zneg p => S754_finite true p 0
  end.

(** [float(z)] for an [int]: nearest double, ties to even;
    [OverflowError] when the integer is too large for a double. *)
Definition of_int (z : Z) : result float :=
  let f := binary_normalize prec emax z 0 false in
  if is_inf f then Raise OverflowError else Ok f.

(** [a / b] on two [int]s: the correctly rounded quotient. *)
Definition int_truediv (a b : Z) : result float :=
  if b =? 0 then Raise ZeroDivisionError
  else
    let f := SFdiv prec emax (exact a) (exact b) in
    if is_inf f then Raise OverflowError else Ok f.

Definition is_zero (f : float) : bool :=
  match f with S754_zero _ => true | _ => false end.

(** [x / y] on two [float]s. *)
Definition truediv (x y : float) : result float :=
  if is_zero y then Raise ZeroDivisionError else Ok (SFdiv prec emax x y).

(** [x * y] on two [float]s. *)
Definition mul (x y : float) : float := SFmul prec emax x y.

(** [x * z] for an [int] [z], which is converted first. *)
Definition mul_int (x : float) (z : Z) : result float :=
  match of_int z with
  | Ok y => Ok (mul x y)
  | Raise e => Raise e
  end.

(** The sign-magnitude pair of a finite float: value [n * 2 ^ e]. *)
Definition signed (s : bool) (m : positive) : Z := cond_Zopp s (Zpos m).

(** Exact three-way comparison of a float with an integer;
    [None] for a NaN, which is unordered. *)
Definition compare_Z (f : float) (z : Z) : option comparison :=
  match f with
  | S754_nan => None
  | S754_infinity s => Some (if s then Lt else Gt)
  | S754_zero _ => Some (0 ?= z)
  | S754_finite s m e =>
      Some (if 0 <=? e then (signed s m * 2 ^ e ?= z)
            else (signed s m ?= z * 2 ^ (- e)))
  end.

(** Exact three-way comparison of two floats. *)
Definition compare (f g : float) : option comparison :=
  match f, g with
  | S754_nan, _ | _, S754_nan => None
  | S754_infinity s, S754_infinity t =>
      Some (if Bool.eqb s t then Eq else if s then Lt else Gt)
  | S754_infinity s, _ => Some (if s then Lt else Gt)
  | _, S754_infinity t => Some (if t then Gt else Lt)
  | S754_zero _, _ => option_map CompOpp (compare_Z g 0)
  | _, S754_zero _ => compare_Z f 0
  | S754_finite s m e, S754_finite t n d =>
      let lo := Z.min e d in
      Some (signed s m * 2 ^ (e - lo) ?= signed t n * 2 ^ (d - lo))
  end.

Definition eqb_Z (f : float) (z : Z) : bool :=
  match compare_Z f z with Some Eq => true | _ => false end.

Definition gtb_Z (f : float) (z : Z) : bool :=
  match compare_Z f z with Some Gt => true | _ => false end.

Definition eqb (f g : float) : bool :=
  match compare f g with Some Eq => true | _ => false end.

(** [int(x)]: truncation toward zero. *)
Definition trunc (f : float) : result Z :=
  match f with
  | S754_nan => Raise ValueError
  | S754_infinity _ => Raise OverflowError
  | S754_zero _ => Ok 0
  | S754_finite s m e =>
      Ok (cond_Zopp s (if 0 <=? e then Zpos m * 2 ^ e
                       else Zpos m / 2 ^ (- e)))
  end.

(** Nearest integer to [a / b] for [0 <= a], [0 < b], ties to even. *)
Definition div_half_even (a b : Z) : Z :=
  let q := a / b in
  let r := a mod b in
  match 2 * r ?= b with
  | Lt => q
  | Gt => q + 1
  | Eq => if Z.even q then q else q + 1
  end.

(** [round(x)] with no digit count: nearest integer, ties to even. *)
Definition round (f : float) : result Z :=
  match f with
  | S754_nan => Raise ValueError
  | S754_infinity _ => Raise OverflowError
  | S754_zero _ => Ok 0
  | S754_finite s m e =>
      Ok (cond_Zopp s (if 0 <=? e then Zpos m * 2 ^ e
                       else div_half_even (Zpos m) (2 ^ (- e))))
  end.

(** The nearest double to [(-1)^s * a / b], for [0 <= a] and [0 < b]. *)
Definition of_ratio (s : bool) (a b : Z) : float :=
  match a with
  | Zpos p => SFdiv prec emax (S754_finite s p 0) (exact b)
  | _ => S754_zero s
  end.

(** [round(x, ndigits)]: the decimal value of [x] rounded half-even at
    [ndigits] places, converted back to the nearest double. *)
Definition round_ndigits (f : float) (ndigits : Z) : result float :=
  match f with
  | S754_finite s m e =>
      let num := Zpos m * (if 0 <=? e then 2 ^ e else 1)
                        * (if 0 <=? ndigits then 10 ^ ndigits else 1) in
      let den := (if 0 <=? e then 1 else 2 ^ (- e))
                 * (if 0 <=? ndigits then 1 else 10 ^ (- ndigits)) in
      let q := div_half_even num den in
      let r := if 0 <=? ndigits then of_ratio s q (10 ^ ndigits)
               else of_ratio s (q * 10 ^ (- ndigits)) 1 in
      if is_inf r then Raise OverflowError else Ok r
  | _ => Ok f
  end.

End PyFloat.

(** ** Python strings

    A [str] is modelled by [string], its characters read as the code points
    U+0000 to U+00FF. *)

Module PyStr.

Definition code (c : ascii) : Z := Z.of_N (N_of_ascii c).

(** The characters [int()] and [float()] skip around a numeral. *)
Definition is_space (c : ascii) : bool :=
  let n := code c in
  ((9 <=? n) && (n <=? 13)) || (n =? 32) || (n =? 133) || (n =? 160).

Definition is_digit (c : ascii) : bool :=
  let n := code c in (48 <=? n) && (n <=? 57).

Definition digit (c : ascii) : Z := code c - 48.

Definition lower (c : ascii) : ascii :=
  let n := code c in
  if (65 <=? n) && (n <=? 90) then ascii_of_N (Z.to_N (n + 32)) else c.

Fixpoint lstrip (s : string) : string :=
  match s with
  | String c s' => if is_space c then lstrip s' else s
  | EmptyString => s
  end.

Fixpoint rstrip (s : string) : string :=
  match s with
  | EmptyString => EmptyString
  | String c s' =>
      match rstrip s' with
      | EmptyString => if is_space c then EmptyString else String c EmptyString
      | t => String c t
      end
  end.

Definition strip (s : string) : string := rstrip (lstrip s).

(** [s[i:]] for a possibly negative start index. *)
Definition slice_from (i : Z) (s : string) : string :=
  let n := Z.of_nat (String.length s) in
  let start := if i <? 0 then Z.max 0 (n + i) else Z.min n i in
  substring (Z.to_nat start) (Z.to_nat (n - start)) s.

(** [needle in hay]. *)
Fixpoint contains (needle hay : string) : bool :=
  prefix needle hay
  || match hay with
     | EmptyString => false
     | String _ hay' => contains needle hay'
     end.

(** [s.replace(old, new)]: every occurrence, left to right, not
    overlapping.  [skip] counts the characters of a match still to drop. *)
Fixpoint replace_from (old new : string) (skip : nat) (s : string) : string :=
  match s with
  | EmptyString => EmptyString
  | String c s' =>
      match skip with
      | S k => replace_from old new k s'
      | O =>
          if prefix old s
          then new ++ replace_from old new (Nat.pred (String.length old)) s'
          else String c (replace_from old new O s')
      end
  end.

Fixpoint intersperse (new s : string) : string :=
  match s with
  | EmptyString => new
  | String c s' => new ++ String c (intersperse new s')
  end.

Definition replace (s old new : string) : string :=
  match old with
  | EmptyString => intersperse new s
  | _ => replace_from old new O s
  end.

(** A run of digits in which single underscores may separate digits,
    entered after its first digit: the value so far, the number of digits
    read, and the unread rest. *)
Fixpoint digitpart_from (s : string) (acc : Z) (cnt : nat) : Z * nat * string :=
  match s with
  | String c s' =>
      if is_digit c then digitpart_from s' (10 * acc + digit c) (S cnt)
      else if Ascii.eqb c "_" then
        match s' with
        | String d s'' =>
            if is_digit d then digitpart_from s'' (10 * acc + digit d) (S cnt)
            else (acc, cnt, s)
        | EmptyString => (acc, cnt, s)
        end
      else (acc, cnt, s)
  | EmptyString => (acc, cnt, s)
  end.

(** [None] when the text does not start with a digit. *)
Definition digitpart (s : string) : option (Z * nat * string) :=
  match s with
  | String c s' => if is_digit c then Some (digitpart_from s' (digit c) 1%nat) else None
  | EmptyString => None
  end.

(** An optional sign: whether it was a minus, and the rest. *)
Definition sign (s : string) : bool * string :=
  match s with
  | String c s' =>
      if Ascii.eqb c "-" then (true, s')
      else if Ascii.eqb c "+" then (false, s')
      else (false, s)
  | EmptyString => (false, s)
  end.

(** The default limit of [sys.set_int_max_str_digits]. *)
Definition int_max_str_digits : nat := 4300.

(** [int(s)] in base ten. *)
Definition to_int (s : string) : result Z :=
  let '(neg, body) := sign (strip s) in
  match digitpart body with
  | Some (n, cnt, EmptyString) =>
      if (int_max_str_digits <? cnt)%nat then Raise ValueError
      else Ok (cond_Zopp neg n)
  | _ => Raise ValueError
  end.

Fixpoint map_lower (s : string) : string :=
  match s with
  | EmptyString => EmptyString
  | String c s' => String (lower c) (map_lower s')
  end.

(** The decimal mantissa of [float(s)]: integer part, optional point and
    fraction; the digits as one integer, the count of fraction digits, and
    the rest. *)
Definition mantissa (s : string) : option (Z * nat * string) :=
  match digitpart s with
  | Some (i, _, String c r) =>
      if Ascii.eqb c "." then
        match r with
        | String d r' =>
            if is_digit d
            then let '(m, cnt, rest) := digitpart_from r' (10 * i + digit d) 1%nat in
                 Some (m, cnt, rest)
            else Some (i, O, r)
        | EmptyString => Some (i, O, r)
        end
      else Some (i, O, String c r)
  | Some (i, _, EmptyString) => Some (i, O, EmptyString)
  | None =>
      match s with
      | String c r =>
          if Ascii.eqb c "." then
            match digitpart r with
            | Some (m, cnt, rest) => Some (m, cnt, rest)
            | None => None
            end
          else None
      | EmptyString => None
      end
  end.

(** The optional exponent of [float(s)]; the text must end after it. *)
Definition exponent (s : string) : option Z :=
  match s with
  | EmptyString => Some 0
  | String c r =>
      if Ascii.eqb (lower c) "e" then
        let '(neg, body) := sign r in
        match digitpart body with
        | Some (n, _, EmptyString) => Some (cond_Zopp neg n)
        | _ => None
        end
      else None
  end.

(** [float(s)]. *)
Definition to_float (s : string) : result PyFloat.float :=
  let '(neg, body) := sign (strip s) in
  let word := map_lower body in
  if String.eqb word "inf" || String.eqb word "infinity"
  then Ok (S754_infinity neg)
  else if String.eqb word "nan" then Ok S754_nan
  else
    match mantissa body with
    | Some (m, frac, rest) =>
        match exponent rest with
        | Some e =>
            let k := e - Z.of_nat frac in
            Ok (if 0 <=? k then PyFloat.of_ratio neg (m * 10 ^ k) 1
                else PyFloat.of_ratio neg m (10 ^ (- k)))
        | None => Raise ValueError
        end
    | None => Raise ValueError
    end.

End PyStr.

(** ** Naive datetimes

    A naive [datetime] is a point of the proleptic Gregorian calendar at
    microsecond resolution; it is modelled by the count of microseconds
    since [datetime.min], 0001-01-01 00:00:00. *)

Module Datetime.

Definition datetime : Type := Z.
Definition timedelta : Type := Z.

Definition us_per_second : Z := 1000000.
Definition us_per_minute : Z := 60 * us_per_second.
Definition us_per_hour : Z := 60 * us_per_minute.
Definition us_per_day : Z := 24 * us_per_hour.

Definition MAXORDINAL : Z := 3652059.

(** [datetime.max], 9999-12-31 23:59:59.999999. *)
Definition max : datetime := MAXORDINAL * us_per_day - 1.

Definition in_range (t : Z) : bool := (0 <=? t) && (t <=? max).

Definition microsecond (t : datetime) : Z := t mod us_per_second.
Definition second (t : datetime) : Z := (t / us_per_second) mod 60.
Definition minute (t : datetime) : Z := (t / us_per_minute) mod 60.
Definition hour (t : datetime) : Z := (t / us_per_hour) mod 24.
Definition toordinal (t : datetime) : Z := t / us_per_day + 1.

(** [t.replace(second=s, microsecond=us)], for [0 <= s < 60] and
    [0 <= us < 1000000]. *)
Definition replace (t : datetime) (s us : Z) : datetime :=
  t - second t * us_per_second - microsecond t + s * us_per_second + us.

(** [timedelta(minutes=m, seconds=s)]. *)
Definition mk_timedelta (minutes seconds : Z) : result timedelta :=
  let d := minutes * us_per_minute + seconds * us_per_second in
  if 999999999 <? Z.abs (d / us_per_day) then Raise OverflowError else Ok d.

(** [t + d]. *)
Definition add (t : datetime) (d : timedelta) : result datetime :=
  if in_range (t + d) then Ok (t + d) else Raise OverflowError.

Definition DAYS_IN_MONTH (month : Z) : Z :=
  nth (Z.to_nat month) [-1; 31; 28; 31; 30; 31; 30; 31; 31; 30; 31; 30; 31] 0.

Definition DAYS_BEFORE_MONTH (month : Z) : Z :=
  nth (Z.to_nat month) [-1; 0; 31; 59; 90; 120; 151; 181; 212; 243; 273; 304; 334] 0.

Definition DI400Y : Z := 146097.
Definition DI100Y : Z := 36524.
Definition DI4Y : Z := 1461.

(** [_ord2ymd]: ordinal to (year, month, day), with January 1 of year 1
    as day 1. *)
Definition ord2ymd (ordinal : Z) : Z * Z * Z :=
  let n := ordinal - 1 in
  let n400 := n / DI400Y in
  let n := n mod DI400Y in
  let year := n400 * 400 + 1 in
  let n100 := n / DI100Y in
  let n := n mod DI100Y in
  let n4 := n / DI4Y in
  let n := n mod DI4Y in
  let n1 := n / 365 in
  let n := n mod 365 in
  let year := year + n100 * 100 + n4 * 4 + n1 in
  if (n1 =? 4) || (n100 =? 4) then (year - 1, 12, 31)
  else
    let leapyear := (n1 =? 3) && (negb (n4 =? 24) || (n100 =? 3)) in
    let month := Z.shiftr (n + 50) 5 in
    let preceding :=
      DAYS_BEFORE_MONTH month + (if (2 <? month) && leapyear then 1 else 0) in
    if n <? preceding then
      let month := month - 1 in
      let preceding :=
        preceding
        - (DAYS_IN_MONTH month + (if (month =? 2) && leapyear then 1 else 0)) in
      (year, month, n - preceding + 1)
    else (year, month, n - preceding + 1).

(** The [year] attribute. *)
Definition year (t : datetime) : Z := fst (fst (ord2ymd (toordinal t))).

Definition digit_char (d : Z) : ascii := ascii_of_N (Z.to_N (48 + d)).

(** Two decimal digits, zero padded. *)
Definition pad2 (n : Z) : string :=
  String (digit_char (n / 10 mod 10)) (String (digit_char (n mod 10)) "").

(** A year between 1 and 9999, not padded. *)
Definition year_str (y : Z) : string :=
  (if 1000 <=? y then String (digit_char (y / 1000 mod 10)) "" else "")
  ++ (if 100 <=? y then String (digit_char (y / 100 mod 10)) "" else "")
  ++ (if 10 <=? y then String (digit_char (y / 10 mod 10)) "" else "")
  ++ String (digit_char (y mod 10)) "".

(** [t.strftime("%Y-%m-%d %H:%M:%S")]. *)
Definition strftime_Ymd_HMS (t : datetime) : string :=
  let '(y, m, d) := ord2ymd (toordinal t) in
  year_str y ++ "-" ++ pad2 m ++ "-" ++ pad2 d ++ " "
  ++ pad2 (hour t) ++ ":" ++ pad2 (minute t) ++ ":" ++ pad2 (second t).

(** [datetime(y, m, d, H, M, S, us)] for a valid date; used to write
    concrete instants. *)
Definition is_leap (y : Z) : bool :=
  (y mod 4 =? 0) && (negb (y mod 100 =? 0) || (y mod 400 =? 0)).

Definition ymd2ord (y m d : Z) : Z :=
  let y1 := y - 1 in
  y1 * 365 + y1 / 4 - y1 / 100 + y1 / 400
  + DAYS_BEFORE_MONTH m + (if (2 <? m) && is_leap y then 1 else 0) + d.

Definition mk (y m d H M S us : Z) : datetime :=
  (ymd2ord y m d - 1) * us_per_day
  + H * us_per_hour + M * us_per_minute + S * us_per_second + us.

End Datetime.

(** ** Python values *)

(** The scalars a raw field, a dictionary key or a display value can be. *)
Inductive PyVal : Type :=
| PNone
| PBool (b : bool)
| PInt (z : Z)
| PFloat (f : PyFloat.float)
| PStr (s : string)
| PDatetime (t : Datetime.datetime).

Module Py.

Definition of_bool (b : bool) : Z := if b then 1 else 0.

(** [v == w]. *)
Definition eq (v w : PyVal) : bool :=
  match v, w with
  | PNone, PNone => true
  | PStr s, PStr t => String.eqb s t
  | PDatetime s, PDatetime t => s =? t
  | PBool a, PBool b => of_bool a =? of_bool b
  | PBool a, PInt z | PInt z, PBool a => of_bool a =? z
  | PInt y, PInt z => y =? z
  | PFloat f, PBool a | PBool a, PFloat f => PyFloat.eqb_Z f (of_bool a)
  | PFloat f, PInt z | PInt z, PFloat f => PyFloat.eqb_Z f z
  | PFloat f, PFloat g => PyFloat.eqb f g
  | _, _ => false
  end.

(** [v != w]. *)
Definition ne (v w : PyVal) : bool := negb (eq v w).

(** [v in t] for a tuple [t]. *)
Definition in_ (v : PyVal) (t : list PyVal) : bool := existsb (eq v) t.

(** [v is None] and [v is False]. *)
Definition is_None (v : PyVal) : bool :=
  match v with PNone => true | _ => false end.

Definition is_False (v : PyVal) : bool :=
  match v with PBool false => true | _ => false end.

(** [isinstance(v, str)] and [isinstance(v, int)]; [bool] is a subclass of
    [int]. *)
Definition isinstance_str (v : PyVal) : bool :=
  match v with PStr _ => true | _ => false end.

Definition isinstance_int (v : PyVal) : bool :=
  match v with PInt _ | PBool _ => true | _ => false end.

(** [v > m] for an [int] [m]. *)
Definition gt_int (v : PyVal) (m : Z) : result bool :=
  match v with
  | PBool b => Ok (m <? of_bool b)
  | PInt z => Ok (m <? z)
  | PFloat f => Ok (PyFloat.gtb_Z f m)
  | PNone | PStr _ | PDatetime _ => Raise TypeError
  end.

(** [int(v)]. *)
Definition int (v : PyVal) : result Z :=
  match v with
  | PBool b => Ok (of_bool b)
  | PInt z => Ok z
  | PFloat f => PyFloat.trunc f
  | PStr s => PyStr.to_int s
  | PNone | PDatetime _ => Raise TypeError
  end.

(** [float(v)]. *)
Definition float (v : PyVal) : result PyFloat.float :=
  match v with
  | PBool b => PyFloat.of_int (of_bool b)
  | PInt z => PyFloat.of_int z
  | PFloat f => Ok f
  | PStr s => PyStr.to_float s
  | PNone | PDatetime _ => Raise TypeError
  end.

(** [v / m] for an [int] [m]. *)
Definition truediv_int (v : PyVal) (m : Z) : result PyFloat.float :=
  match v with
  | PBool b => PyFloat.int_truediv (of_bool b) m
  | PInt z => PyFloat.int_truediv z m
  | PFloat f =>
      (y <- PyFloat.of_int m ;; PyFloat.truediv f y)%result
  | PNone | PStr _ | PDatetime _ => Raise TypeError
  end.

(** [round(z, ndigits)] for an [int]: the integer itself for a digit count
    of zero or more, else the nearest multiple of [10 ** -ndigits], ties to
    the even multiple. *)
Definition round_int (z ndigits : Z) : Z :=
  if 0 <=? ndigits then z
  else
    let p := 10 ^ (- ndigits) in
    p * PyFloat.div_half_even z p.

(** [round(v, ndigits)]; only numbers define [__round__]. *)
Definition round_ndigits (v : PyVal) (ndigits : Z) : result PyVal :=
  match v with
  | PBool b => Ok (PInt (round_int (of_bool b) ndigits))
  | PInt z => Ok (PInt (round_int z ndigits))
  | PFloat f =>
      match PyFloat.round_ndigits f ndigits with
      | Ok r => Ok (PFloat r)
      | Raise e => Raise e
      end
  | PNone | PStr _ | PDatetime _ => Raise TypeError
  end.

(** [d.get(k, default)] on a dictionary given by its items. *)
Fixpoint dict_get (d : list (PyVal * PyVal)) (k default : PyVal) : PyVal :=
  match d with
  | [] => default
  | (k', v) :: d' => if eq k' k then v else dict_get d' k default
  end.

End Py.

(** ** Sensor descriptions *)

(** The constants of the host framework the descriptions name. *)
Inductive Unit : Type :=
| MILES
| KILOMETERS
| KILOMETERS_PER_HOUR
| PERCENTAGE
| MINUTES
| WATT
| AMPERE
| UnitStr (s : string).

Inductive SensorStateClass : Type := MEASUREMENT.

Inductive SensorDeviceClass : Type :=
| DISTANCE
| BATTERY
| POWER
| DURATION
| TIMESTAMP.

(** [PolestarSensorDescription]: the fields of [SensorEntityDescription]
    the table sets, and those of [PolestarSensorDescriptionMixin]. *)
Record PolestarSensorDescription : Type :=
  { key : string;
    name : string;
    icon : option string;
    query : option string;
    field_name : option string;
    unit : option Unit;
    round_digits : option Z;
    state_class : option SensorStateClass;
    device_class : option SensorDeviceClass;
    max_value : option Z;
    dict_data : option (list (PyVal * PyVal)) }.

Definition CHARGING_CONNECTION_STATUS_DICT : list (PyVal * PyVal) :=
  [ (PStr "CHARGER_CONNECTION_STATUS_CONNECTED", PStr "Connected");
    (PStr "CHARGER_CONNECTION_STATUS_DISCONNECTED", PStr "Disconnected");
    (PStr "CHARGER_CONNECTION_STATUS_FAULT", PStr "Fault");
    (PStr "CHARGER_CONNECTION_STATUS_UNSPECIFIED", PStr "Unspecified") ].

Definition CHARGING_STATUS_DICT : list (PyVal * PyVal) :=
  [ (PStr "CHARGING_STATUS_DONE", PStr "Done");
    (PStr "CHARGING_STATUS_IDLE", PStr "Idle");
    (PStr "CHARGING_STATUS_CHARGING", PStr "Charging");
    (PStr "CHARGING_STATUS_FAULT", PStr "Fault");
    (PStr "CHARGING_STATUS_UNSPECIFIED", PStr "Unspecified");
    (PStr "CHARGING_STATUS_SCHEDULED", PStr "Scheduled");
    (PStr "CHARGING_STATUS_DISCHARGING", PStr "Discharging");
    (PStr "CHARGING_STATUS_ERROR", PStr "Error");
    (PStr "CHARGING_STATUS_SMART_CHARGING", PStr "Smart Charging") ].

Definition API_STATUS_DICT : list (PyVal * PyVal) :=
  [ (PInt 200, PStr "OK");
    (PInt 303, PStr "OK");
    (PInt 401, PStr "Unauthorized");
    (PInt 404, PStr "API Down");
    (PInt 500, PStr "Internal Server Error") ].

Definition descr_estimate_distance_to_empty_miles : PolestarSensorDescription :=
  {| key := "estimate_distance_to_empty_miles";
     name := "Distance Miles Remaining";
     icon := Some "mdi:map-marker-distance";
     query := Some "getBatteryData";
     field_name := Some "estimatedDistanceToEmptyMiles";
     unit := Some MILES;
     round_digits := None;
     state_class := Some MEASUREMENT;
     device_class := Some DISTANCE;
     max_value := Some 410;
     dict_data := None |}.

Definition descr_estimate_distance_to_empty_km : PolestarSensorDescription :=
  {| key := "estimate_distance_to_empty_km";
     name := "Distance Km Remaining";
     icon := Some "mdi:map-marker-distance";
     query := Some "getBatteryData";
     field_name := Some "estimatedDistanceToEmptyKm";
     unit := Some KILOMETERS;
     round_digits := None;
     state_class := Some MEASUREMENT;
     device_class := Some DISTANCE;
     max_value := Some 660;
     dict_data := None |}.

Definition descr_current_odometer_meters : PolestarSensorDescription :=
  {| key := "current_odometer_meters";
     name := "Odometer";
     icon := Some "mdi:map-marker-distance";
     query := Some "getOdometerData";
     field_name := Some "odometerMeters";
     unit := Some KILOMETERS;
     round_digits := Some 0;
     state_class := Some MEASUREMENT;
     device_class := Some DISTANCE;
     max_value := None;
     dict_data := None |}.

Definition descr_average_speed_km_per_hour : PolestarSensorDescription :=
  {| key := "average_speed_km_per_hour";
     name := "Avg. Speed";
     icon := Some "mdi:speedometer";
     query := Some "getOdometerData";
     field_name := Some "averageSpeedKmPerHour";
     unit := Some KILOMETERS_PER_HOUR;
     round_digits := None;
     state_class := Some MEASUREMENT;
     device_class := Some DISTANCE;
     max_value := Some 150;
     dict_data := None |}.

Definition descr_current_trip_meter_automatic : PolestarSensorDescription :=
  {| key := "current_trip_meter_automatic";
     name := "Trip Meter Automatic";
     icon := Some "mdi:map-marker-distance";
     query := Some "getOdometerData";
     field_name := Some "tripMeterAutomaticKm";
     unit := Some KILOMETERS;
     round_digits := None;
     state_class := Some MEASUREMENT;
     device_class := Some DISTANCE;
     max_value := None;
     dict_data := None |}.

Definition descr_current_trip_meter_manual : PolestarSensorDescription :=
  {| key := "current_trip_meter_manual";
     name := "Trip Meter Manual";
     icon := Some "mdi:map-marker-distance";
     query := Some "getOdometerData";
     field_name := Some "tripMeterManualKm";
     unit := Some KILOMETERS;
     round_digits := None;
     state_class := Some MEASUREMENT;
     device_class := Some DISTANCE;
     max_value := None;
     dict_data := None |}.

Definition descr_battery_charge_level : PolestarSensorDescription :=
  {| key := "battery_charge_level";
     name := "Battery Level";
     icon := None;
     query := Some "getBatteryData";
     field_name := Some "batteryChargeLevelPercentage";
     unit := Some PERCENTAGE;
     round_digits := Some 0;
     state_class := Some MEASUREMENT;
     device_class := Some BATTERY;
     max_value := Some 100;
     dict_data := None |}.

Definition descr_estimated_charging_time_to_full_minutes : PolestarSensorDescription :=
  {| key := "estimated_charging_time_to_full_minutes";
     name := "Charging Time";
     icon := Some "mdi:battery-clock";
     query := Some "getBatteryData";
     field_name := Some "estimatedChargingTimeToFullMinutes";
     unit := Some MINUTES;
     round_digits := None;
     state_class := None;
     device_class := None;
     max_value := Some 1500;
     dict_data := None |}.

Definition descr_charging_status : PolestarSensorDescription :=
  {| key := "charging_status";
     name := "Charging Status";
     icon := Some "mdi:ev-station";
     query := Some "getBatteryData";
     field_name := Some "chargingStatus";
     unit := None;
     round_digits := None;
     state_class := None;
     device_class := None;
     max_value := None;
     dict_data := Some CHARGING_STATUS_DICT |}.

Definition descr_charging_power_watts : PolestarSensorDescription :=
  {| key := "charging_power_watts";
     name := "Charging Power";
     icon := Some "mdi:lightning-bolt";
     query := Some "getBatteryData";
     field_name := Some "chargingPowerWatts";
     unit := Some WATT;
     round_digits := None;
     state_class := Some MEASUREMENT;
     device_class := Some POWER;
     max_value := None;
     dict_data := None |}.

Definition descr_charging_current_amps : PolestarSensorDescription :=
  {| key := "charging_current_amps";
     name := "Charging Current";
     icon := Some "mdi:current-ac";
     query := Some "getBatteryData";
     field_name := Some "chargingCurrentAmps";
     unit := Some AMPERE;
     round_digits := None;
     state_class := Some MEASUREMENT;
     device_class := Some POWER;
     max_value := None;
     dict_data := None |}.

Definition descr_charger_connection_status : PolestarSensorDescription :=
  {| key := "charger_connection_status";
     name := "Charging Connection Status";
     icon := Some "mdi:connection";
     query := Some "getBatteryData";
     field_name := Some "chargerConnectionStatus";
     unit := None;
     round_digits := None;
     state_class := Some MEASUREMENT;
     device_class := Some POWER;
     max_value := None;
     dict_data := Some CHARGING_CONNECTION_STATUS_DICT |}.

Definition descr_average_energy_consumption_kwh_per_100_km : PolestarSensorDescription :=
  {| key := "average_energy_consumption_kwh_per_100_km";
     name := "Avg. Energy Consumption";
     icon := Some "mdi:battery-clock";
     query := Some "getBatteryData";
     field_name := Some "averageEnergyConsumptionKwhPer100Km";
     unit := Some (UnitStr "kWh/100km");
     round_digits := None;
     state_class := Some MEASUREMENT;
     device_class := Some POWER;
     max_value := None;
     dict_data := None |}.

Definition descr_estimated_charging_time_minutes_to_target_distance : PolestarSensorDescription :=
  {| key := "estimated_charging_time_minutes_to_target_distance";
     name := "Estimated Charging Time To Target Distance";
     icon := Some "mdi:battery-clock";
     query := Some "getBatteryData";
     field_name := Some "estimatedChargingTimeMinutesToTargetDistance";
     unit := Some PERCENTAGE;
     round_digits := None;
     state_class := Some MEASUREMENT;
     device_class := Some POWER;
     max_value := None;
     dict_data := None |}.

Definition descr_vin : PolestarSensorDescription :=
  {| key := "vin";
     name := "VIN";
     icon := Some "mdi:card-account-details";
     query := Some "getConsumerCarsV2";
     field_name := Some "vin";
     unit := None;
     round_digits := None;
     state_class := None;
     device_class := None;
     max_value := None;
     dict_data := None |}.

Definition descr_registration_number : PolestarSensorDescription :=
  {| key := "registration_number";
     name := "Registration Number";
     icon := Some "mdi:numeric-1-box";
     query := Some "getConsumerCarsV2";
     field_name := Some "registrationNo";
     unit := None;
     round_digits := None;
     state_class := None;
     device_class := None;
     max_value := None;
     dict_data := None |}.

Definition descr_estimated_fully_charged_time : PolestarSensorDescription :=
  {| key := "estimated_fully_charged_time";
     name := "Time Full Charged";
     icon := Some "mdi:battery-clock";
     query := Some "getBatteryData";
     field_name := Some "estimatedChargingTimeToFullMinutes";
     unit := None;
     round_digits := None;
     state_class := Some MEASUREMENT;
     device_class := Some DURATION;
     max_value := None;
     dict_data := None |}.

Definition descr_model_name : PolestarSensorDescription :=
  {| key := "model_name";
     name := "Model Name";
     icon := Some "mdi:car-electric";
     query := Some "getConsumerCarsV2";
     field_name := Some "content/model/name";
     unit := None;
     round_digits := None;
     state_class := None;
     device_class := None;
     max_value := None;
     dict_data := None |}.

Definition descr_last_updated_odometer_data : PolestarSensorDescription :=
  {| key := "last_updated_odometer_data";
     name := "Last Updated Odometer Data";
     icon := Some "mdi:clock";
     query := Some "getOdometerData";
     field_name := Some "eventUpdatedTimestamp/iso";
     unit := None;
     round_digits := None;
     state_class := Some MEASUREMENT;
     device_class := Some TIMESTAMP;
     max_value := None;
     dict_data := None |}.

Definition descr_last_updated_battery_data : PolestarSensorDescription :=
  {| key := "last_updated_battery_data";
     name := "Last Updated Battery Data";
     icon := Some "mdi:clock";
     query := Some "getBatteryData";
     field_name := Some "eventUpdatedTimestamp/iso";
     unit := None;
     round_digits := None;
     state_class := Some MEASUREMENT;
     device_class := Some TIMESTAMP;
     max_value := None;
     dict_data := None |}.

Definition descr_estimate_full_charge_range_miles : PolestarSensorDescription :=
  {| key := "estimate_full_charge_range_miles";
     name := "Calc. Miles Full Charge";
     icon := Some "mdi:map-marker-distance";
     query := Some "getBatteryData";
     field_name := Some "estimatedDistanceToEmptyMiles";
     unit := Some MILES;
     round_digits := None;
     state_class := Some MEASUREMENT;
     device_class := Some DISTANCE;
     max_value := Some 410;
     dict_data := None |}.

Definition descr_estimate_full_charge_range : PolestarSensorDescription :=
  {| key := "estimate_full_charge_range";
     name := "Calc. Km Full Charge";
     icon := Some "mdi:map-marker-distance";
     query := Some "getBatteryData";
     field_name := Some "estimatedDistanceToEmptyKm";
     unit := Some KILOMETERS;
     round_digits := None;
     state_class := Some MEASUREMENT;
     device_class := Some DISTANCE;
     max_value := Some 660;
     dict_data := None |}.

Definition descr_api_status_code : PolestarSensorDescription :=
  {| key := "api_status_code";
     name := "API Status";
     icon := Some "mdi:heart";
     query := None;
     field_name := None;
     unit := None;
     round_digits := None;
     state_class := None;
     device_class := None;
     max_value := None;
     dict_data := Some API_STATUS_DICT |}.

Definition descr_api_token_expires_at : PolestarSensorDescription :=
  {| key := "api_token_expires_at";
     name := "API Token Expired At";
     icon := Some "mdi:heart";
     query := None;
     field_name := None;
     unit := None;
     round_digits := None;
     state_class := None;
     device_class := None;
     max_value := None;
     dict_data := None |}.

Definition POLESTAR_SENSOR_TYPES : list PolestarSensorDescription :=
  [ descr_estimate_distance_to_empty_miles;
    descr_estimate_distance_to_empty_km;
    descr_current_odometer_meters;
    descr_average_speed_km_per_hour;
    descr_current_trip_meter_automatic;
    descr_current_trip_meter_manual;
    descr_battery_charge_level;
    descr_estimated_charging_time_to_full_minutes;
    descr_charging_status;
    descr_charging_power_watts;
    descr_charging_current_amps;
    descr_charger_connection_status;
    descr_average_energy_consumption_kwh_per_100_km;
    descr_estimated_charging_time_minutes_to_target_distance;
    descr_vin;
    descr_registration_number;
    descr_estimated_fully_charged_time;
    descr_model_name;
    descr_last_updated_odometer_data;
    descr_last_updated_battery_data;
    descr_estimate_full_charge_range_miles;
    descr_estimate_full_charge_range;
    descr_api_status_code;
    descr_api_token_expires_at ].

(** ** The device and the sensor entity *)

(** Modelled from the spec: the [Polestar] device class of [polestar.py] is
    not among the sources.  The record holds what the sensor consumes from
    it: the attributes [vin] and [id], and the answers of its query methods
    [get_latest_call_code], [get_token_expiry], [get_latest_data] and
    [get_value] in the device's current state; [next_update] is
    [polestarApi.next_update].  Every property below holds of every such
    device. *)
Record Polestar : Type :=
  { vin : string;
    id : string;
    get_latest_call_code : PyVal;
    get_token_expiry : option Datetime.datetime;
    get_latest_data : option string -> option string -> PyVal;
    get_value : option string -> option string -> bool -> result PyVal;
    next_update : Datetime.datetime }.

Definition set_next_update (device : Polestar) (t : Datetime.datetime) : Polestar :=
  {| vin := vin device;
     id := id device;
     get_latest_call_code := get_latest_call_code device;
     get_token_expiry := get_token_expiry device;
     get_latest_data := get_latest_data device;
     get_value := get_value device;
     next_update := t |}.

(** The attributes of a [PolestarSensor] instance. *)
Record PolestarSensor : Type :=
  { entity_id : string;
    _attr_unique_id : string;
    description : PolestarSensorDescription;
    attr_translation_key : string;
    attr_has_entity_name : bool;
    entity_description : PolestarSensorDescription;
    _attr_state_class : option SensorStateClass;
    _attr_device_class : option SensorDeviceClass;
    _attr_native_value : PyVal }.

Definition set_attr_native_value (self : PolestarSensor) (v : PyVal) : PolestarSensor :=
  {| entity_id := entity_id self;
     _attr_unique_id := _attr_unique_id self;
     description := description self;
     attr_translation_key := attr_translation_key self;
     attr_has_entity_name := attr_has_entity_name self;
     entity_description := entity_description self;
     _attr_state_class := _attr_state_class self;
     _attr_device_class := _attr_device_class self;
     _attr_native_value := v |}.

(** [get_skip_cache]. *)
Definition get_skip_cache (self : PolestarSensor) : bool :=
  existsb (String.eqb (key (description self)))
          ["vin"; "registration_number"; "model_name"].

(** [_async_update_attrs]. *)
Definition _async_update_attrs (device : Polestar) (self : PolestarSensor)
  : result PolestarSensor :=
  (v <- get_value device (query (description self))
                  (field_name (description self)) (get_skip_cache self) ;;
   Ok (set_attr_native_value self v))%result.

(** [__init__]; [DOMAIN] is the integration's domain constant, a parameter
    here.  [super().__init__(device)] belongs to [PolestarEntity], which is
    not among the sources; every attribute below is assigned after it. *)
Definition __init__ (DOMAIN : string) (device : Polestar)
           (description : PolestarSensorDescription) : result PolestarSensor :=
  let unique_id := PyStr.slice_from (-4) (vin device) in
  let self :=
    {| entity_id := DOMAIN ++ ".'polestar_'." ++ unique_id ++ "_" ++ key description;
       _attr_unique_id := "polestar_" ++ unique_id ++ "-" ++ key description;
       description := description;
       attr_translation_key := "polestar_" ++ key description;
       attr_has_entity_name := true;
       entity_description := description;
       _attr_state_class := state_class description;
       _attr_device_class := device_class description;
       _attr_native_value := PNone |} in
  if Py.eq (get_latest_call_code device) (PInt 200)
  then _async_update_attrs device self
  else Ok self.

(** The [unique_id] property, as [PolestarSensor] overrides it. *)
Definition unique_id (device : Polestar) (self : PolestarSensor) : string :=
  id device ++ "-" ++ key (entity_description self).

(** ** Method bodies: state, early return and exceptions *)

(** How a statement ends: falls through to the next one, returns from the
    method, or raises. *)
Inductive ctl (A : Type) : Type :=
| Next (a : A)
| Return (r : PyVal)
| Throw (e : exn).
Arguments Next {A} a.
Arguments Return {A} r.
Arguments Throw {A} e.

(** A statement of a method of the sensor: it may assign attributes of
    [self]; what it assigned stays assigned when it returns or raises. *)
Definition M (A : Type) : Type := PolestarSensor -> ctl A * PolestarSensor.

Definition ret {A : Type} (a : A) : M A := fun self => (Next a, self).

Definition bind {A B : Type} (m : M A) (k : A -> M B) : M B :=
  fun self =>
    match m self with
    | (Next a, self') => k a self'
    | (Return r, self') => (Return r, self')
    | (Throw e, self') => (Throw e, self')
    end.

Definition return_ {A : Type} (r : PyVal) : M A := fun self => (Return r, self).

Definition lift {A : Type} (r : result A) : M A :=
  fun self =>
    match r with
    | Ok a => (Next a, self)
    | Raise e => (Throw e, self)
    end.

Definition asks {A : Type} (f : PolestarSensor -> A) : M A :=
  fun self => (Next (f self), self).

Definition assign_attr_native_value (v : PyVal) : M Datatypes.unit :=
  fun self => (Next tt, set_attr_native_value self v).

Definition pass : M Datatypes.unit := ret tt.

Definition when (b : bool) (m : M Datatypes.unit) : M Datatypes.unit :=
  if b then m else pass.

(** Calling the method: a body that falls off its end returns [None]. *)
Definition call (m : M Datatypes.unit) (self : PolestarSensor)
  : result PyVal * PolestarSensor :=
  match m self with
  | (Next _, self') => (Ok PNone, self')
  | (Return r, self') => (Ok r, self')
  | (Throw e, self') => (Raise e, self')
  end.

Declare Scope method_scope.
Delimit Scope method_scope with method.
Notation "x <- m ;; k" := (bind m (fun x => k))
  (at level 100, m at next level, right associativity) : method_scope.
Notation "m ;; k" := (bind m (fun _ => k))
  (at level 100, right associativity) : method_scope.

(** ** The [state] property *)

Section State.

(** [datetime.now()] at the time of the read, and the device. *)
Variable now : Datetime.datetime.
Variable device : Polestar.

Local Open Scope method_scope.

(** Exception for [api_status_code], then the label dictionaries. *)
Definition state_dict_data (d : PolestarSensorDescription) : M Datatypes.unit :=
  match dict_data d with
  | Some dict_data =>
      if (key d =? "api_status_code")%string
      then return_ (Py.dict_get dict_data (get_latest_call_code device) (PStr "Error"))
      else
        v <- asks _attr_native_value ;;
        return_ (Py.dict_get dict_data v v)
  | None => pass
  end.

Definition state_token_expiry (d : PolestarSensorDescription) : M Datatypes.unit :=
  when (key d =? "api_token_expires_at")%string
    match get_token_expiry device with
    | None => return_ PNone
    | Some t => return_ (PStr (Datetime.strftime_Ymd_HMS t))
    end.

Definition state_unknown : M Datatypes.unit :=
  v <- asks _attr_native_value ;;
  when (Py.ne v (PInt 0) && Py.in_ v [PNone; PBool false]) (return_ PNone).

(** Battery charge level contains ".0" at the end. *)
Definition state_battery_charge_level (d : PolestarSensorDescription)
  : M Datatypes.unit :=
  when (key d =? "battery_charge_level")%string
    (v <- asks _attr_native_value ;;
     match v with
     | PStr s =>
         n <- lift (PyStr.to_int (PyStr.replace s ".0" "")) ;;
         assign_attr_native_value (PInt n)
     | _ => pass
     end).

(** Only give a state that is not above the maximum value. *)
Definition state_max_value (d : PolestarSensorDescription) : M Datatypes.unit :=
  match max_value d with
  | Some max_value =>
      v <- asks _attr_native_value ;;
      match v with
      | PStr s =>
          n <- lift (PyStr.to_int s) ;;
          assign_attr_native_value (PInt n)
      | _ => pass
      end ;;
      v <- asks _attr_native_value ;;
      above <- lift (Py.gt_int v max_value) ;;
      when above (return_ PNone)
  | None => pass
  end.

(** Custom state for [estimated_fully_charged_time]; [round(value)] of an
    [int] is the [int] itself. *)
Definition state_estimated_fully_charged_time (d : PolestarSensorDescription)
  : M Datatypes.unit :=
  when (key d =? "estimated_fully_charged_time")%string
    (v <- asks _attr_native_value ;;
     value <- lift (Py.int v) ;;
     if 0 <? value then
       delta <- lift (Datetime.mk_timedelta value 0) ;;
       t <- lift (Datetime.add (Datetime.replace now 0 0) delta) ;;
       return_ (PDatetime t)
     else return_ (PStr "Not charging")).

Definition state_estimate_full_charge_range (d : PolestarSensorDescription)
  : M Datatypes.unit :=
  when (existsb (String.eqb (key d))
                ["estimate_full_charge_range"; "estimate_full_charge_range_miles"])
    (let battery_level :=
       get_latest_data device (query d) (Some "batteryChargeLevelPercentage") in
     let estimate_range := get_latest_data device (query d) (field_name d) in
     if Py.is_None battery_level || Py.is_None estimate_range then return_ PNone
     else if Py.is_False battery_level || Py.is_False estimate_range then return_ PNone
     else
       battery_level <- lift (Py.int battery_level) ;;
       estimate_range <- lift (Py.int estimate_range) ;;
       ratio <- lift (PyFloat.int_truediv estimate_range battery_level) ;;
       scaled <- lift (PyFloat.mul_int ratio 100) ;;
       estimate_range <- lift (PyFloat.round scaled) ;;
       return_ (PInt estimate_range)).

(** [key in ('current_odometer_meters')] tests the key against a string,
    not a tuple: it holds of every substring of that string. *)
Definition state_odometer (d : PolestarSensorDescription) : M Datatypes.unit :=
  when (PyStr.contains (key d) "current_odometer_meters")
    (v <- asks _attr_native_value ;;
     n <- lift (Py.int v) ;;
     when (1000 <? n)
       (v <- asks _attr_native_value ;;
        km <- lift (Py.truediv_int v 1000) ;;
        k <- lift (PyFloat.trunc km) ;;
        assign_attr_native_value (PInt k))).

(** Round the value. *)
Definition state_round (d : PolestarSensorDescription) : M Datatypes.unit :=
  match round_digits d with
  | Some round_digits =>
      v <- asks _attr_native_value ;;
      if (round_digits =? 0) && Py.isinstance_int v then
        n <- lift (Py.int v) ;;
        return_ (PInt n)
      else
        f <- lift (Py.float v) ;;
        r <- lift (PyFloat.round_ndigits f round_digits) ;;
        return_ (PFloat r)
  | None => pass
  end.

Definition state_body : M Datatypes.unit :=
  d <- asks entity_description ;;
  state_dict_data d ;;
  state_token_expiry d ;;
  state_unknown ;;
  state_battery_charge_level d ;;
  state_max_value d ;;
  state_estimated_fully_charged_time d ;;
  state_estimate_full_charge_range d ;;
  state_odometer d ;;
  state_round d ;;
  v <- asks _attr_native_value ;;
  return_ v.

(** Reading [self.state]: the value returned or the exception raised,
    and the entity afterwards. *)
Definition state (self : PolestarSensor) : result PyVal * PolestarSensor :=
  call state_body self.

End State.

(** ** The other properties of the entity *)

(** The [icon] property. *)
Definition icon_property (self : PolestarSensor) : option string :=
  icon (entity_description self).

(** The [native_unit_of_measurement] and [unit_of_measurement] properties. *)
Definition native_unit_of_measurement (self : PolestarSensor) : option Unit :=
  unit (entity_description self).

Definition unit_of_measurement (self : PolestarSensor) : option Unit :=
  unit (entity_description self).

(** The [native_value] property: [round(self.state, digits)], with two
    digits when the description declares none.  It reads [self.state], so it
    assigns what [state] assigns. *)
Definition native_value (now : Datetime.datetime) (device : Polestar)
           (self : PolestarSensor) : result PyVal * PolestarSensor :=
  let '(read, self) := state now device self in
  match read with
  | Ok v =>
      match round_digits (entity_description self) with
      | Some digits => (Py.round_ndigits v digits, self)
      | None => (Py.round_ndigits v 2, self)
      end
  | Raise e => (Raise e, self)
  end.

(** ** The update cycle *)

Inductive log_level : Type := WARNING.

Section Update.

(** [Polestar.async_update]: the outcome of the refresh and the device
    afterwards. *)
Variable device_async_update : Polestar -> result Datatypes.unit * Polestar.

(** The body of the [try] block. *)
Definition async_update_try (device : Polestar) (self : PolestarSensor)
  : result Datatypes.unit * (Polestar * PolestarSensor) :=
  let '(refreshed, device) := device_async_update device in
  match refreshed with
  | Ok _ =>
      match get_value device (query (description self))
                      (field_name (description self)) (get_skip_cache self) with
      | Ok v => (Ok tt, (device, set_attr_native_value self v))
      | Raise e => (Raise e, (device, self))
      end
  | Raise e => (Raise e, (device, self))
  end.

(** [async_update]: [now] is [datetime.now()] in the handler, [log] the
    records of [_LOGGER] so far. *)
Definition async_update (now : Datetime.datetime) (device : Polestar)
           (log : list (log_level * string)) (self : PolestarSensor)
  : result Datatypes.unit * (Polestar * list (log_level * string) * PolestarSensor) :=
  match async_update_try device self with
  | (Ok _, (device, self)) => (Ok tt, (device, log, self))
  | (Raise e, (device, self)) =>
      if isinstance_Exception e then
        let log := (log ++ [(WARNING, "Failed to update sensor async update")])%list in
        match (delta <- Datetime.mk_timedelta 0 60 ;; Datetime.add now delta)%result with
        | Ok t => (Ok tt, (set_next_update device t, log, self))
        | Raise e' => (Raise e', (device, log, self))
        end
      else (Raise e, (device, log, self))
  end.

(** The list comprehension of [async_setup_entry]: one sensor per
    description, in order; the first [__init__] that raises ends it. *)
Fixpoint new_sensors (DOMAIN : string) (device : Polestar)
         (descriptions : list PolestarSensorDescription)
  : result (list PolestarSensor) :=
  match descriptions with
  | [] => Ok []
  | d :: rest =>
      (sensor <- __init__ DOMAIN device d ;;
       sensors <- new_sensors DOMAIN device rest ;;
       Ok (sensor :: sensors))%result
  end.

(** [async_setup_entry], for the device found in [hass.data]: the sensors
    handed to [async_add_entities], and the device afterwards. *)
Definition async_setup_entry (DOMAIN : string) (device : Polestar)
  : result (list PolestarSensor) * Polestar :=
  let '(refreshed, device) := device_async_update device in
  match refreshed with
  | Ok _ => (new_sensors DOMAIN device POLESTAR_SENSOR_TYPES, device)
  | Raise e => (Raise e, device)
  end.

End Update.

(** ** Specification vocabulary *)

(** The numeric value of a raw value exceeds the maximum [M]; a numeric
    string counts with the integer it converts to. *)
Inductive exceeds (M : Z) : PyVal -> Prop :=
| exceeds_bool (b : bool) : M < Py.of_bool b -> exceeds M (PBool b)
| exceeds_int (z : Z) : M < z -> exceeds M (PInt z)
| exceeds_float (f : PyFloat.float) : PyFloat.gtb_Z f M = true -> exceeds M (PFloat f)
| exceeds_str (s : string) (z : Z) :
    PyStr.to_int s = Ok z -> M < z -> exceeds M (PStr s).

(** The raw value is known and its numeric value does not exceed [M]: the
    rules for unknown and for implausible values both let it through. *)
Inductive plausible (M : Z) : PyVal -> Prop :=
| plausible_bool (b : bool) : Py.of_bool b <= M -> plausible M (PBool b)
| plausible_int (z : Z) : z <= M -> plausible M (PInt z)
| plausible_float (f : PyFloat.float) : PyFloat.gtb_Z f M = false -> plausible M (PFloat f)
| plausible_str (s : string) (z : Z) :
    PyStr.to_int s = Ok z -> z <= M -> plausible M (PStr s).

(** [round(estimate_range / battery_level * 100)] on two [int]s. *)
Definition round_range_per_level (estimate_range battery_level : Z) : result PyVal :=
  (ratio <- PyFloat.int_truediv estimate_range battery_level ;;
   scaled <- PyFloat.mul_int ratio 100 ;;
   n <- PyFloat.round scaled ;;
   Ok (PInt n))%result.

(** The two related raw fields of a full-charge-range sensor: the battery
    level and the range estimate. *)
Definition related_fields (device : Polestar) (d : PolestarSensorDescription)
  : PyVal * PyVal :=
  (get_latest_data device (query d) (Some "batteryChargeLevelPercentage"),
   get_latest_data device (query d) (field_name d)).

(** The derivation of the full-charge range from the two related fields. *)
Definition full_charge_range (battery_level estimate_range : PyVal) : result PyVal :=
  if Py.is_None battery_level || Py.is_None estimate_range then Ok PNone
  else if Py.is_False battery_level || Py.is_False estimate_range then Ok PNone
  else (b <- Py.int battery_level ;;
        e <- Py.int estimate_range ;;
        round_range_per_level e b)%result.

(** [int(v / 1000)]: the reading divided by 1000, truncated to an integer. *)
Definition km_of_meters (v : PyVal) : result PyVal :=
  (km <- Py.truediv_int v 1000 ;;
   k <- PyFloat.trunc km ;;
   Ok (PInt k))%result.

(** A description with no label dictionary, maximum or rounding, whose key
    has no rule of its own: [state] can only hand the raw value on. *)
Definition plain (d : PolestarSensorDescription) : bool :=
  match dict_data d, max_value d, round_digits d with
  | None, None, None =>
      negb (existsb (String.eqb (key d))
              ["api_token_expires_at"; "estimated_fully_charged_time";
               "estimate_full_charge_range"; "estimate_full_charge_range_miles"])
      && negb (PyStr.contains (key d) "current_odometer_meters")
  | _, _, _ => false
  end.

(** No character of [s] is a decimal point. *)
Fixpoint pointless (s : string) : bool :=
  match s with
  | EmptyString => true
  | String c s' => negb (Ascii.eqb c ".") && pointless s'
  end.

(** A statement that never assigns an attribute of [self]. *)
Definition readonly {A : Type} (m : M A) : Prop :=
  forall self, snd (m self) = self.

(** A statement that assigns no attribute of [self] but the cached native
    value. *)
Definition frame {A : Type} (m : M A) : Prop :=
  forall self,
    snd (m self)
    = set_attr_native_value self (_attr_native_value (snd (m self))).

(** A refresh of the API client that succeeds and leaves the device as it
    is. *)
Definition quiet_refresh (device : Polestar) : result Datatypes.unit * Polestar :=
  (Ok tt, device).

(** What a read of [state] leaves in the cache, away from the odometer.  A
    cached string reaches the battery-level rule and the maximum rule when
    the description has no label dictionary and is not the token expiry; the
    battery-level rule converts it with every ".0" removed, the maximum rule
    as it is; a string [int] refuses, and every other value, stays. *)
Definition converts (d : PolestarSensorDescription) : bool :=
  match dict_data d with
  | Some _ => false
  | None =>
      negb (key d =? "api_token_expires_at")%string
      && ((key d =? "battery_charge_level")%string
          || match max_value d with Some _ => true | None => false end)
  end.

Definition converted (d : PolestarSensorDescription) (s : string) : result Z :=
  if (key d =? "battery_charge_level")%string
  then PyStr.to_int (PyStr.replace s ".0" "")
  else PyStr.to_int s.

Definition cached_after (d : PolestarSensorDescription) (v : PyVal) : PyVal :=
  match v with
  | PStr s =>
      if converts d then
        match converted d s with
        | Ok n => PInt n
        | Raise _ => v
        end
      else v
  | _ => v
  end.

(** ** Sample data *)

(** A device whose cache holds the two given related fields. *)
Definition sample_device (battery_level estimate_range : PyVal) : Polestar :=
  {| vin := "YSMYKEAE3RB000123";
     id := "YSMYKEAE";
     get_latest_call_code := PInt 200;
     get_token_expiry := Some (Datetime.mk 2024 1 15 11 0 0 0);
     get_latest_data :=
       fun _ field =>
         match field with
         | Some "batteryChargeLevelPercentage" => battery_level
         | _ => estimate_range
         end;
     get_value := fun _ _ _ => Ok estimate_range;
     next_update := Datetime.mk 2024 1 15 10 20 0 0 |}.

Definition sample_now : Datetime.datetime := Datetime.mk 2024 1 15 10 20 45 123456.

(** A sensor for description [d] whose cached native value is [v]. *)
Definition sample_sensor (d : PolestarSensorDescription) (v : PyVal) : PolestarSensor :=
  {| entity_id := "polestar_api.'polestar_'.0123_" ++ key d;
     _attr_unique_id := "polestar_0123-" ++ key d;
     description := d;
     attr_translation_key := "polestar_" ++ key d;
     attr_has_entity_name := true;
     entity_description := d;
     _attr_state_class := state_class d;
     _attr_device_class := device_class d;
     _attr_native_value := v |}.

(** A refresh of the API client that fails with a network error. *)
Definition failing_refresh (device : Polestar) : result Datatypes.unit * Polestar :=
  (Raise (OtherException "TimeoutError"), device).

(** A device whose last API call was refused and whose reads fail. *)
Definition offline_device : Polestar :=
  {| vin := "YSMYKEAE3RB000123";
     id := "YSMYKEAE";
     get_latest_call_code := PInt 401;
     get_token_expiry := None;
     get_latest_data := fun _ _ => PNone;
     get_value := fun _ _ _ => Raise (OtherException "ClientError");
     next_update := Datetime.mk 2024 1 15 10 20 0 0 |}.

(** * Properties *)

(** ** Statements of a method body *)

Lemma bind_asks {A B : Type} (f : PolestarSensor -> A) (k : A -> M B) self :
  bind (asks f) k self = k (f self) self.
Proof. reflexivity. Qed.

Lemma bind_pass {B : Type} (k : Datatypes.unit -> M B) self :
  bind pass k self = k tt self.
Proof. reflexivity. Qed.

Lemma bind_lift {A B : Type} (r : result A) (k : A -> M B) self :
  bind (lift r) k self =
  match r with
  | Ok a => k a self
  | Raise e => (Throw e, self)
  end.
Proof. destruct r; reflexivity. Qed.

Lemma bind_assign {B : Type} (v : PyVal) (k : Datatypes.unit -> M B) self :
  bind (assign_attr_native_value v) k self = k tt (set_attr_native_value self v).
Proof. reflexivity. Qed.

Lemma bind_when {B : Type} (b : bool) (m : M Datatypes.unit)
      (k : Datatypes.unit -> M B) self :
  bind (when b m) k self = if b then bind m k self else k tt self.
Proof. destruct b; reflexivity. Qed.

Lemma bind_assoc {A B C : Type} (m : M A) (f : A -> M B) (g : B -> M C) self :
  bind (bind m f) g self = bind m (fun a => bind (f a) g) self.
Proof. unfold bind. destruct (m self) as [[a | r | e] self']; reflexivity. Qed.

(** Finishing a call does not touch the entity. *)
Lemma snd_call_outcome {A : Type} (p : ctl A * PolestarSensor) :
  snd (let (c, s) := p in
       match c with
       | Next _ => (Ok PNone, s)
       | Return r => (Ok r, s)
       | Throw e => (Raise e, s)
       end) = snd p.
Proof. destruct p as [[a | r | e] s]; reflexivity. Qed.

Lemma set_attr_native_value_same self :
  set_attr_native_value self (_attr_native_value self) = self.
Proof. destruct self; reflexivity. Qed.

(** ** Statements that only read *)

Create HintDb readonly.

Lemma readonly_pass : readonly pass.
Proof. intros self. reflexivity. Qed.

Lemma readonly_return_ {A : Type} (r : PyVal) : readonly (return_ (A := A) r).
Proof. intros self. reflexivity. Qed.

Lemma readonly_lift {A : Type} (r : result A) : readonly (lift r).
Proof. intros self. destruct r; reflexivity. Qed.

Lemma readonly_asks {A : Type} (f : PolestarSensor -> A) : readonly (asks f).
Proof. intros self. reflexivity. Qed.

Lemma readonly_bind {A B : Type} (m : M A) (k : A -> M B) :
  readonly m -> (forall a, readonly (k a)) -> readonly (bind m k).
Proof.
  intros Hm Hk self. unfold bind. specialize (Hm self).
  destruct (m self) as [[a | r | e] self1]; simpl in *; subst; auto.
  apply Hk.
Qed.

Lemma readonly_when (b : bool) (m : M Datatypes.unit) :
  readonly m -> readonly (when b m).
Proof. intros Hm. destruct b; [exact Hm | apply readonly_pass]. Qed.

#[local] Hint Resolve readonly_pass readonly_return_ readonly_lift
  readonly_asks readonly_bind readonly_when : readonly.

Ltac readonly_cases :=
  repeat match goal with
         | |- readonly (match ?x with _ => _ end) => destruct x
         | |- readonly (if ?b then _ else _) => destruct b
         | |- forall _, _ => intro
         | |- readonly (bind _ _) => apply readonly_bind
         | |- readonly (when _ _) => apply readonly_when
         end; auto with readonly.

Lemma readonly_charged_time now d :
  readonly (state_estimated_fully_charged_time now d).
Proof. unfold state_estimated_fully_charged_time. readonly_cases. Qed.

Lemma readonly_full_range device d :
  readonly (state_estimate_full_charge_range device d).
Proof. unfold state_estimate_full_charge_range. cbv zeta. readonly_cases. Qed.

Lemma readonly_round d : readonly (state_round d).
Proof. unfold state_round. readonly_cases. Qed.

Lemma readonly_odometer_skip d :
  PyStr.contains (key d) "current_odometer_meters" = false ->
  readonly (state_odometer d).
Proof. intros H. unfold state_odometer. rewrite H. apply readonly_pass. Qed.

#[local] Hint Resolve readonly_charged_time readonly_full_range readonly_round
  readonly_odometer_skip : readonly.

(** The rules after the maximum-value rule assign nothing, the odometer
    rule apart. *)
Lemma readonly_rest now device d :
  PyStr.contains (key d) "current_odometer_meters" = false ->
  readonly
    (bind (state_estimated_fully_charged_time now d) (fun _ =>
     bind (state_estimate_full_charge_range device d) (fun _ =>
     bind (state_odometer d) (fun _ =>
     bind (state_round d) (fun _ =>
     bind (asks _attr_native_value) (fun v => return_ (A := Datatypes.unit) v)))))).
Proof. intros H. readonly_cases. Qed.

(** ** The rule for unknown values *)

(** The test [v != 0 and v in (None, False)] holds of [None] only: [False]
    equals [0] and so fails its first half. *)
Lemma unknown_test_is_None (v : PyVal) :
  Py.ne v (PInt 0) && Py.in_ v [PNone; PBool false] = Py.is_None v.
Proof.
  destruct v as [ | b | z | f | s | t]; try reflexivity.
  - destruct b; reflexivity.
  - destruct z; reflexivity.
  - unfold Py.ne, Py.in_; simpl. destruct (PyFloat.eqb_Z f 0); reflexivity.
Qed.

(** ** The rules of [state], one step each

    Each lemma runs one rule in front of the rest [k] of the body. *)

Section Steps.

Variable now : Datetime.datetime.
Variable device : Polestar.
Variable d : PolestarSensorDescription.
Variable k : Datatypes.unit -> M Datatypes.unit.
Variable self : PolestarSensor.

Lemma step_dict_none :
  dict_data d = None ->
  bind (state_dict_data device d) k self = k tt self.
Proof. intros H. unfold state_dict_data. rewrite H. reflexivity. Qed.

Lemma step_dict_some dd :
  dict_data d = Some dd ->
  bind (state_dict_data device d) k self =
  (Return (if (key d =? "api_status_code")%string
           then Py.dict_get dd (get_latest_call_code device) (PStr "Error")
           else Py.dict_get dd (_attr_native_value self) (_attr_native_value self)),
   self).
Proof.
  intros H. unfold state_dict_data. rewrite H.
  destruct (key d =? "api_status_code")%string; reflexivity.
Qed.

Lemma step_token_skip :
  (key d =? "api_token_expires_at")%string = false ->
  bind (state_token_expiry device d) k self = k tt self.
Proof. intros H. unfold state_token_expiry. rewrite H. reflexivity. Qed.

Lemma step_token :
  (key d =? "api_token_expires_at")%string = true ->
  bind (state_token_expiry device d) k self =
  (Return match get_token_expiry device with
          | None => PNone
          | Some t => PStr (Datetime.strftime_Ymd_HMS t)
          end, self).
Proof.
  intros H. unfold state_token_expiry. rewrite H.
  destruct (get_token_expiry device); reflexivity.
Qed.

Lemma step_unknown :
  bind state_unknown k self =
  if Py.is_None (_attr_native_value self) then (Return PNone, self) else k tt self.
Proof.
  unfold state_unknown. rewrite bind_assoc, bind_asks, bind_when.
  rewrite unknown_test_is_None.
  destruct (Py.is_None (_attr_native_value self)); reflexivity.
Qed.

Lemma step_battery_skip :
  (key d =? "battery_charge_level")%string = false ->
  bind (state_battery_charge_level d) k self = k tt self.
Proof. intros H. unfold state_battery_charge_level. rewrite H. reflexivity. Qed.

Lemma step_battery_other :
  Py.isinstance_str (_attr_native_value self) = false ->
  bind (state_battery_charge_level d) k self = k tt self.
Proof.
  intros H. unfold state_battery_charge_level.
  rewrite bind_when, bind_assoc, bind_asks.
  destruct (key d =? "battery_charge_level")%string; [ | reflexivity].
  destruct (_attr_native_value self); try reflexivity. discriminate H.
Qed.

Lemma step_battery_str s :
  (key d =? "battery_charge_level")%string = true ->
  _attr_native_value self = PStr s ->
  bind (state_battery_charge_level d) k self =
  match PyStr.to_int (PyStr.replace s ".0" "") with
  | Ok n => k tt (set_attr_native_value self (PInt n))
  | Raise e => (Throw e, self)
  end.
Proof.
  intros H Hs. unfold state_battery_charge_level.
  rewrite H, bind_when, bind_assoc, bind_asks, Hs, bind_assoc, bind_lift.
  destruct (PyStr.to_int (PyStr.replace s ".0" "")); reflexivity.
Qed.

Lemma step_max_none :
  max_value d = None ->
  bind (state_max_value d) k self = k tt self.
Proof. intros H. unfold state_max_value. rewrite H. reflexivity. Qed.

Lemma step_max_other m :
  max_value d = Some m ->
  Py.isinstance_str (_attr_native_value self) = false ->
  bind (state_max_value d) k self =
  match Py.gt_int (_attr_native_value self) m with
  | Ok above => if above then (Return PNone, self) else k tt self
  | Raise e => (Throw e, self)
  end.
Proof.
  intros H Hs. unfold state_max_value. rewrite H.
  rewrite bind_assoc, bind_asks.
  assert (E : (match _attr_native_value self with
               | PStr s => bind (lift (PyStr.to_int s))
                             (fun n => assign_attr_native_value (PInt n))
               | _ => pass
               end) = pass)
    by (destruct (_attr_native_value self); try reflexivity; discriminate Hs).
  rewrite E, bind_assoc, bind_pass, bind_assoc, bind_asks, bind_assoc, bind_lift.
  destruct (Py.gt_int (_attr_native_value self) m) as [[ | ] | e]; reflexivity.
Qed.

Lemma step_max_str m s :
  max_value d = Some m ->
  _attr_native_value self = PStr s ->
  bind (state_max_value d) k self =
  match PyStr.to_int s with
  | Ok n =>
      if m <? n then (Return PNone, set_attr_native_value self (PInt n))
      else k tt (set_attr_native_value self (PInt n))
  | Raise e => (Throw e, self)
  end.
Proof.
  intros H Hs. unfold state_max_value. rewrite H.
  rewrite bind_assoc, bind_asks, Hs, !bind_assoc, bind_lift.
  destruct (PyStr.to_int s) as [n | e]; [ | reflexivity].
  rewrite bind_assign, bind_assoc, bind_asks. simpl.
  destruct (m <? n); reflexivity.
Qed.

Lemma step_charged_time_skip :
  (key d =? "estimated_fully_charged_time")%string = false ->
  bind (state_estimated_fully_charged_time now d) k self = k tt self.
Proof.
  intros H. unfold state_estimated_fully_charged_time. rewrite H. reflexivity.
Qed.

Lemma step_charged_time :
  (key d =? "estimated_fully_charged_time")%string = true ->
  bind (state_estimated_fully_charged_time now d) k self =
  match Py.int (_attr_native_value self) with
  | Ok value =>
      if 0 <? value then
        match (delta <- Datetime.mk_timedelta value 0 ;;
               Datetime.add (Datetime.replace now 0 0) delta)%result with
        | Ok t => (Return (PDatetime t), self)
        | Raise e => (Throw e, self)
        end
      else (Return (PStr "Not charging"), self)
  | Raise e => (Throw e, self)
  end.
Proof.
  intros H. unfold state_estimated_fully_charged_time.
  rewrite H, bind_when, bind_assoc, bind_asks, bind_assoc, bind_lift.
  destruct (Py.int (_attr_native_value self)) as [value | e]; [ | reflexivity].
  destruct (0 <? value); [ | reflexivity].
  rewrite bind_assoc, bind_lift. unfold rbind.
  destruct (Datetime.mk_timedelta value 0) as [delta | e]; [ | reflexivity].
  rewrite bind_assoc, bind_lift.
  destruct (Datetime.add (Datetime.replace now 0 0) delta); reflexivity.
Qed.

Lemma step_full_range_skip :
  existsb (String.eqb (key d))
          ["estimate_full_charge_range"; "estimate_full_charge_range_miles"] = false ->
  bind (state_estimate_full_charge_range device d) k self = k tt self.
Proof.
  intros H. unfold state_estimate_full_charge_range. rewrite H. reflexivity.
Qed.

Lemma step_full_range :
  existsb (String.eqb (key d))
          ["estimate_full_charge_range"; "estimate_full_charge_range_miles"] = true ->
  bind (state_estimate_full_charge_range device d) k self =
  match full_charge_range (fst (related_fields device d))
                          (snd (related_fields device d)) with
  | Ok r => (Return r, self)
  | Raise e => (Throw e, self)
  end.
Proof.
  intros H. unfold state_estimate_full_charge_range, full_charge_range, related_fields.
  rewrite H, bind_when. cbv zeta. cbn [fst snd].
  destruct (Py.is_None _ || Py.is_None _); [reflexivity | ].
  destruct (Py.is_False _ || Py.is_False _); [reflexivity | ].
  rewrite bind_assoc, bind_lift. unfold rbind at 1.
  destruct (Py.int (get_latest_data device (query d)
                      (Some "batteryChargeLevelPercentage"))) as [b | e];
    [ | reflexivity].
  rewrite bind_assoc, bind_lift. unfold rbind at 1.
  destruct (Py.int (get_latest_data device (query d) (field_name d))) as [e | e];
    [ | reflexivity].
  unfold round_range_per_level.
  rewrite bind_assoc, bind_lift. unfold rbind at 1.
  destruct (PyFloat.int_truediv e b) as [ratio | e']; [ | reflexivity].
  rewrite bind_assoc, bind_lift. unfold rbind at 1.
  destruct (PyFloat.mul_int ratio 100) as [scaled | e']; [ | reflexivity].
  rewrite bind_assoc, bind_lift. unfold rbind.
  destruct (PyFloat.round scaled); reflexivity.
Qed.

Lemma step_odometer_skip :
  PyStr.contains (key d) "current_odometer_meters" = false ->
  bind (state_odometer d) k self = k tt self.
Proof. intros H. unfold state_odometer. rewrite H. reflexivity. Qed.

Lemma step_odometer :
  PyStr.contains (key d) "current_odometer_meters" = true ->
  bind (state_odometer d) k self =
  match Py.int (_attr_native_value self) with
  | Ok n =>
      if 1000 <? n then
        match km_of_meters (_attr_native_value self) with
        | Ok km => k tt (set_attr_native_value self km)
        | Raise e => (Throw e, self)
        end
      else k tt self
  | Raise e => (Throw e, self)
  end.
Proof.
  intros H. unfold state_odometer.
  rewrite H, bind_when, bind_assoc, bind_asks, bind_assoc, bind_lift.
  destruct (Py.int (_attr_native_value self)) as [n | e]; [ | reflexivity].
  rewrite bind_when. destruct (1000 <? n); [ | reflexivity].
  rewrite bind_assoc, bind_asks, bind_assoc, bind_lift.
  unfold km_of_meters, rbind.
  destruct (Py.truediv_int (_attr_native_value self) 1000) as [km | e];
    [ | reflexivity].
  rewrite bind_assoc, bind_lift.
  destruct (PyFloat.trunc km); reflexivity.
Qed.

Lemma step_round_none :
  round_digits d = None ->
  bind (state_round d) k self = k tt self.
Proof. intros H. unfold state_round. rewrite H. reflexivity. Qed.

Lemma step_round_int_zero z :
  round_digits d = Some 0 ->
  _attr_native_value self = PInt z ->
  bind (state_round d) k self = (Return (PInt z), self).
Proof.
  intros H Hv. unfold state_round. rewrite H, bind_assoc, bind_asks, Hv.
  reflexivity.
Qed.

End Steps.

(** The rounding rule at zero digits on a value that is not an [int]: the
    value goes through [float] and comes back as the float [round] gives. *)
Lemma round_rule_float d self f (k : Datatypes.unit -> M Datatypes.unit) :
  round_digits d = Some 0 ->
  _attr_native_value self = PFloat f ->
  bind (state_round d) k self =
  match PyFloat.round_ndigits f 0 with
  | Ok r => (Return (PFloat r), self)
  | Raise e => (Throw e, self)
  end.
Proof.
  intros Hr Hv. unfold state_round. rewrite Hr.
  rewrite bind_assoc, bind_asks, Hv.
  cbn [Py.isinstance_int andb Z.eqb Py.float].
  rewrite !bind_assoc, bind_lift. rewrite !bind_assoc, bind_lift.
  destruct (PyFloat.round_ndigits f 0); reflexivity.
Qed.

Lemma round_rule_str d self s (k : Datatypes.unit -> M Datatypes.unit) :
  round_digits d = Some 0 ->
  _attr_native_value self = PStr s ->
  bind (state_round d) k self =
  match (f <- PyStr.to_float s ;; PyFloat.round_ndigits f 0)%result with
  | Ok r => (Return (PFloat r), self)
  | Raise e => (Throw e, self)
  end.
Proof.
  intros Hr Hv. unfold state_round. rewrite Hr.
  rewrite bind_assoc, bind_asks, Hv.
  cbn [Py.isinstance_int andb Z.eqb Py.float].
  rewrite !bind_assoc, bind_lift. unfold rbind.
  destruct (PyStr.to_float s) as [f | e]; [ | reflexivity].
  rewrite !bind_assoc, bind_lift.
  destruct (PyFloat.round_ndigits f 0); reflexivity.
Qed.

Lemma round_rule_bool d self b (k : Datatypes.unit -> M Datatypes.unit) :
  round_digits d = Some 0 ->
  _attr_native_value self = PBool b ->
  bind (state_round d) k self = (Return (PInt (Py.of_bool b)), self).
Proof.
  intros Hr Hv. unfold state_round. rewrite Hr, bind_assoc, bind_asks, Hv.
  reflexivity.
Qed.


(** Entering [state]: the body reads [self.entity_description] first. *)
Ltac enter_state := unfold state, call, state_body; rewrite bind_asks.

(** ** Numerals carry no decimal point *)

Lemma is_space_not_point c : PyStr.is_space c = true -> Ascii.eqb c "." = false.
Proof.
  intros H. destruct (Ascii.eqb_spec c "."); [subst; discriminate H | reflexivity].
Qed.

Lemma is_digit_not_point c : PyStr.is_digit c = true -> Ascii.eqb c "." = false.
Proof.
  intros H. destruct (Ascii.eqb_spec c "."); [subst; discriminate H | reflexivity].
Qed.

Lemma pointless_lstrip s : pointless (PyStr.lstrip s) = true -> pointless s = true.
Proof.
  induction s as [ | c s IH]; simpl; [easy | ].
  destruct (PyStr.is_space c) eqn:E; [ | easy].
  intros H. rewrite (is_space_not_point _ E), IH; easy.
Qed.

Lemma rstrip_empty s : PyStr.rstrip s = "" -> pointless s = true.
Proof.
  induction s as [ | c s IH]; simpl; [easy | ].
  destruct (PyStr.rstrip s) eqn:E; [ | discriminate].
  destruct (PyStr.is_space c) eqn:Ec; [ | discriminate].
  intros _. rewrite (is_space_not_point _ Ec), IH; easy.
Qed.

Lemma pointless_rstrip s : pointless (PyStr.rstrip s) = true -> pointless s = true.
Proof.
  induction s as [ | c s IH]; simpl; [easy | ].
  destruct (PyStr.rstrip s) as [ | c' t] eqn:E.
  - destruct (PyStr.is_space c) eqn:Ec.
    + intros _. rewrite (is_space_not_point _ Ec), (rstrip_empty _ E). reflexivity.
    + simpl. rewrite (rstrip_empty _ E). easy.
  - intros H. change (pointless (String c (String c' t))) with
      (negb (Ascii.eqb c ".") && pointless (String c' t)) in H.
    apply andb_prop in H. destruct H as [H1 H2]. rewrite H1, IH; easy.
Qed.

(** A digit run read to the end of the text has no point; the statement for
    [String c s] carries the induction over the underscore case, which steps
    two characters at once. *)
Lemma pointless_digitpart_from_next s :
  (forall acc cnt n k,
      PyStr.digitpart_from s acc cnt = (n, k, "") -> pointless s = true)
  /\ (forall c acc cnt n k,
         PyStr.digitpart_from (String c s) acc cnt = (n, k, "") ->
         pointless (String c s) = true).
Proof.
  induction s as [ | c' s [IH1 IH2]].
  - split; [reflexivity | ].
    intros c acc cnt n k. simpl.
    destruct (PyStr.is_digit c) eqn:Ec.
    + rewrite (is_digit_not_point _ Ec). reflexivity.
    + destruct (Ascii.eqb c "_"); discriminate.
  - split; [apply IH2 | ].
    intros c acc cnt n k H.
    change (pointless (String c (String c' s)))
      with (negb (Ascii.eqb c ".") && pointless (String c' s)).
    cbn [PyStr.digitpart_from] in H.
    destruct (PyStr.is_digit c) eqn:Ec.
    + rewrite (is_digit_not_point _ Ec). simpl. eapply IH2, H.
    + destruct (Ascii.eqb_spec c "_") as [-> | ]; [ | discriminate].
      destruct (PyStr.is_digit c') eqn:Ec'; [ | discriminate].
      simpl. rewrite (is_digit_not_point _ Ec'). simpl. eapply IH1, H.
Qed.

Lemma pointless_digitpart u :
  (exists neg z,
      match PyStr.digitpart u with
      | Some (n, cnt, "") =>
          if (PyStr.int_max_str_digits <? cnt)%nat
          then Raise ValueError else Ok (cond_Zopp neg n)
      | _ => Raise ValueError
      end = Ok z) ->
  pointless u = true.
Proof.
  intros (neg & z & Hu). unfold PyStr.digitpart in Hu.
  destruct u as [ | c0 u]; [reflexivity | ].
  destruct (PyStr.is_digit c0) eqn:E0; [ | discriminate].
  destruct (PyStr.digitpart_from u (PyStr.digit c0) 1) as [[n cnt] rest] eqn:E.
  destruct rest; [ | discriminate].
  simpl. rewrite (is_digit_not_point _ E0). simpl.
  eapply (proj1 (pointless_digitpart_from_next u)), E.
Qed.

(** A text [int()] accepts has no decimal point. *)
Lemma pointless_to_int s z : PyStr.to_int s = Ok z -> pointless s = true.
Proof.
  unfold PyStr.to_int, PyStr.strip. intros H.
  apply pointless_lstrip, pointless_rstrip.
  destruct (PyStr.rstrip (PyStr.lstrip s)) as [ | c t]; [reflexivity | ].
  unfold PyStr.sign in H.
  destruct (Ascii.eqb_spec c "-") as [-> | Hm].
  - simpl. apply pointless_digitpart. now exists true, z.
  - destruct (Ascii.eqb_spec c "+") as [-> | Hp].
    + simpl. apply pointless_digitpart. now exists false, z.
    + apply pointless_digitpart. now exists false, z.
Qed.

Lemma replace_from_pointless old new s :
  pointless s = true -> PyStr.replace_from (String "." old) new O s = s.
Proof.
  induction s as [ | c s IH]; [reflexivity | ].
  cbn [pointless PyStr.replace_from prefix].
  intros H. apply andb_prop in H. destruct H as [Hc Hs].
  destruct (ascii_dec "." c) as [<- | _]; [discriminate Hc | ].
  rewrite IH by exact Hs. reflexivity.
Qed.

(** Stripping ".0" leaves a numeral as it is. *)
Lemma replace_numeral s z :
  PyStr.to_int s = Ok z -> PyStr.replace s ".0" "" = s.
Proof.
  intros H. apply replace_from_pointless. eapply pointless_to_int, H.
Qed.

Lemma length_app (a c : string) :
  String.length (a ++ c) = (String.length a + String.length c)%nat.
Proof. induction a as [ | x a IH]; simpl; [ | rewrite IH]; reflexivity. Qed.

Lemma append_cancel_r (a b c : string) : a ++ c = b ++ c -> a = b.
Proof.
  revert b. induction a as [ | x a IH]; intros [ | y b] H; simpl in H.
  - reflexivity.
  - apply (f_equal String.length) in H. simpl in H.
    rewrite length_app in H. lia.
  - apply (f_equal String.length) in H. simpl in H.
    rewrite length_app in H. lia.
  - injection H as -> H. f_equal. now apply IH.
Qed.

Lemma append_assoc (a b c : string) : (a ++ b) ++ c = a ++ b ++ c.
Proof. induction a as [ | x a IH]; simpl; [ | rewrite IH]; reflexivity. Qed.

(** ** Truncation of an instant to the minute *)

Lemma replace_zero_truncates t :
  Datetime.replace t 0 0 = Datetime.us_per_minute * (t / Datetime.us_per_minute).
Proof.
  unfold Datetime.replace, Datetime.second, Datetime.microsecond.
  assert (E : t mod Datetime.us_per_minute
              = t mod Datetime.us_per_second
                + Datetime.us_per_second * ((t / Datetime.us_per_second) mod 60)).
  { change Datetime.us_per_minute with (Datetime.us_per_second * 60).
    apply Z.rem_mul_r; [discriminate | lia]. }
  pose proof (Z.div_mod t Datetime.us_per_minute) as D.
  assert (Datetime.us_per_minute <> 0) by discriminate. lia.
Qed.

Lemma minute_multiple_second n :
  Datetime.second (Datetime.us_per_minute * n) = 0.
Proof.
  unfold Datetime.second.
  change Datetime.us_per_minute with (60 * Datetime.us_per_second).
  rewrite <- Z.mul_assoc, (Z.mul_comm Datetime.us_per_second n), Z.mul_assoc.
  rewrite Z.div_mul by discriminate.
  rewrite Z.mul_comm. apply Z.mod_mul. discriminate.
Qed.

Lemma minute_multiple_microsecond n :
  Datetime.microsecond (Datetime.us_per_minute * n) = 0.
Proof.
  unfold Datetime.microsecond.
  change Datetime.us_per_minute with (60 * Datetime.us_per_second).
  rewrite <- Z.mul_assoc, (Z.mul_comm Datetime.us_per_second n), Z.mul_assoc.
  apply Z.mod_mul. discriminate.
Qed.

Lemma in_range_bounds t : Datetime.in_range t = true -> 0 <= t <= Datetime.max.
Proof. unfold Datetime.in_range. lia. Qed.

(** [timedelta(minutes=n)] exists whenever the instant it leads to does. *)
Lemma mk_timedelta_minutes now n :
  0 < n ->
  Datetime.in_range now = true ->
  Datetime.in_range (Datetime.replace now 0 0 + n * Datetime.us_per_minute) = true ->
  Datetime.mk_timedelta n 0 = Ok (n * Datetime.us_per_minute).
Proof.
  intros Hn Hnow Hsum. apply in_range_bounds in Hnow, Hsum.
  rewrite replace_zero_truncates in Hsum.
  unfold Datetime.mk_timedelta.
  assert (0 <= now / Datetime.us_per_minute)
    by (apply Z.div_pos; [lia | reflexivity]).
  assert (Hd : 0 <= n * Datetime.us_per_minute <= Datetime.max)
    by (unfold Datetime.us_per_minute, Datetime.us_per_second in *; lia).
  replace (n * Datetime.us_per_minute + 0 * Datetime.us_per_second)
    with (n * Datetime.us_per_minute) by lia.
  assert (0 <= n * Datetime.us_per_minute / Datetime.us_per_day <= 3652059).
  { split.
    - apply Z.div_pos; [lia | reflexivity].
    - apply Z.div_le_upper_bound; [reflexivity | ].
      unfold Datetime.max, Datetime.MAXORDINAL in Hd. lia. }
  destruct (Z.ltb_spec 999999999 (Z.abs (n * Datetime.us_per_minute / Datetime.us_per_day)));
    [lia | reflexivity].
Qed.

(** ** The maximum plausible value *)

Lemma max_value_guard_any now device self m :
  dict_data (entity_description self) = None ->
  (key (entity_description self) =? "api_token_expires_at")%string = false ->
  max_value (entity_description self) = Some m ->
  exceeds m (_attr_native_value self) ->
  fst (state now device self) = Ok PNone.
Proof.
  intros Hdict Htoken Hmax Hex. enter_state.
  rewrite step_dict_none, step_token_skip, step_unknown by assumption.
  remember (_attr_native_value self) as v eqn:Hv. symmetry in Hv.
  destruct Hex as [b Hb | z Hz | f Hf | s z Hs Hz]; cbn [Py.is_None].
  - rewrite step_battery_other by (rewrite Hv; reflexivity).
    rewrite (step_max_other _ _ _ m) by (assumption || rewrite Hv; reflexivity).
    rewrite Hv. cbn [Py.gt_int]. apply Z.ltb_lt in Hb. rewrite Hb. reflexivity.
  - rewrite step_battery_other by (rewrite Hv; reflexivity).
    rewrite (step_max_other _ _ _ m) by (assumption || rewrite Hv; reflexivity).
    rewrite Hv. cbn [Py.gt_int]. apply Z.ltb_lt in Hz. rewrite Hz. reflexivity.
  - rewrite step_battery_other by (rewrite Hv; reflexivity).
    rewrite (step_max_other _ _ _ m) by (assumption || rewrite Hv; reflexivity).
    rewrite Hv. cbn [Py.gt_int]. rewrite Hf. reflexivity.
  - apply Z.ltb_lt in Hz.
    destruct (key (entity_description self) =? "battery_charge_level")%string eqn:Hkey.
    + rewrite (step_battery_str _ _ _ s) by assumption.
      rewrite (replace_numeral _ _ Hs), Hs.
      rewrite (step_max_other _ _ _ m) by (assumption || reflexivity).
      cbn [_attr_native_value set_attr_native_value Py.gt_int].
      rewrite Hz. reflexivity.
    + rewrite step_battery_skip by assumption.
      rewrite (step_max_str _ _ _ m s) by assumption.
      rewrite Hs, Hz. reflexivity.
Qed.

(** No description of the table that declares a maximum has a label
    dictionary or is the token-expiry sensor. *)
Lemma max_value_descriptions d m :
  In d POLESTAR_SENSOR_TYPES ->
  max_value d = Some m ->
  dict_data d = None /\ (key d =? "api_token_expires_at")%string = false.
Proof.
  intros Hin Hmax. simpl in Hin.
  repeat (destruct Hin as [Hin | Hin];
          [rewrite <- Hin in Hmax |- *;
           first [discriminate Hmax | split; reflexivity] | ]).
  contradiction.
Qed.

(** C1. For every description of the table that declares a maximum
    plausible value [m], and every raw value whose numeric value exceeds [m]
    (a number, or a numeric string, which is converted to an integer first),
    the [state] accessor returns [None]. *)
Theorem max_value_guard now device self d m :
  In d POLESTAR_SENSOR_TYPES ->
  entity_description self = d ->
  max_value d = Some m ->
  exceeds m (_attr_native_value self) ->
  fst (state now device self) = Ok PNone.
Proof.
  intros Hin Hd Hmax Hex. subst d.
  destruct (max_value_descriptions _ _ Hin Hmax) as [Hdict Htoken].
  now apply (max_value_guard_any now device self m).
Qed.

Lemma max_value_guard_witness :
  fst (state sample_now (sample_device PNone PNone)
         (sample_sensor descr_battery_charge_level (PStr "101"))) = Ok PNone.
Proof.
  apply (max_value_guard sample_now (sample_device PNone PNone)
           (sample_sensor descr_battery_charge_level (PStr "101"))
           descr_battery_charge_level 100).
  - do 6 right. left. reflexivity.
  - reflexivity.
  - reflexivity.
  - apply (exceeds_str 100 "101" 101); [reflexivity | lia].
Defined.

(** ** Unknown values *)

Lemma plain_inv d :
  plain d = true ->
  dict_data d = None /\ max_value d = None /\ round_digits d = None
  /\ (key d =? "api_token_expires_at")%string = false
  /\ (key d =? "estimated_fully_charged_time")%string = false
  /\ existsb (String.eqb (key d))
       ["estimate_full_charge_range"; "estimate_full_charge_range_miles"] = false
  /\ PyStr.contains (key d) "current_odometer_meters" = false.
Proof.
  unfold plain.
  destruct (dict_data d); [discriminate | ].
  destruct (max_value d); [discriminate | ].
  destruct (round_digits d); [discriminate | ].
  cbn [existsb]. intros H. apply andb_prop in H. destruct H as [H1 H2].
  apply negb_true_iff in H1, H2.
  repeat (apply orb_false_elim in H1; destruct H1 as [? H1]).
  repeat split; try assumption. cbn [existsb]. rewrite H3, H4. reflexivity.
Qed.

(** On a plain description a value that is there and is not a string comes
    back as it is. *)
Lemma plain_state now device self :
  plain (entity_description self) = true ->
  Py.is_None (_attr_native_value self) = false ->
  Py.isinstance_str (_attr_native_value self) = false ->
  state now device self = (Ok (_attr_native_value self), self).
Proof.
  intros Hp Hn Hs. destruct (plain_inv _ Hp) as (H1 & H2 & H3 & H4 & H5 & H6 & H7).
  enter_state.
  rewrite step_dict_none, step_token_skip, step_unknown by assumption.
  rewrite Hn.
  rewrite step_battery_other, step_max_none, step_charged_time_skip,
    step_full_range_skip, step_odometer_skip, step_round_none by assumption.
  reflexivity.
Qed.

(** C2. For a description without a label dictionary and other than the
    token-expiry key: a cached raw value [None] makes [state] return [None],
    and the numeral zero is exempt; but a cached [False] is exempt as well,
    since [False != 0] is false in Python: on a plain description [state]
    returns [False], not [None]. *)
Theorem unknown_rule now device self :
  dict_data (entity_description self) = None ->
  (key (entity_description self) =? "api_token_expires_at")%string = false ->
  (_attr_native_value self = PNone -> state now device self = (Ok PNone, self))
  /\ (plain (entity_description self) = true ->
      _attr_native_value self = PInt 0 ->
      state now device self = (Ok (PInt 0), self))
  /\ (plain (entity_description self) = true ->
      _attr_native_value self = PBool false ->
      state now device self = (Ok (PBool false), self)).
Proof.
  intros Hdict Htoken. split; [ | split].
  - intros Hv. enter_state.
    rewrite step_dict_none, step_token_skip, step_unknown by assumption.
    rewrite Hv. reflexivity.
  - intros Hp Hv. rewrite <- Hv. apply plain_state; try assumption;
      rewrite Hv; reflexivity.
  - intros Hp Hv. rewrite <- Hv. apply plain_state; try assumption;
      rewrite Hv; reflexivity.
Qed.

Lemma unknown_rule_witness :
  state sample_now (sample_device PNone PNone)
        (sample_sensor descr_charging_power_watts (PBool false))
  = (Ok (PBool false), sample_sensor descr_charging_power_watts (PBool false)).
Proof.
  apply (unknown_rule sample_now (sample_device PNone PNone)
           (sample_sensor descr_charging_power_watts (PBool false)));
    reflexivity.
Defined.

(** ** The full-charge range *)

Ltac derive_full_range :=
  rewrite step_charged_time_skip, step_full_range by assumption;
  match goal with
  | |- context [match ?r with Ok _ => _ | Raise _ => _ end] =>
      destruct r; reflexivity
  end.

(** A plausible raw value reaches the derivation, whose outcome is then the
    outcome of [state]. *)
Lemma full_range_reached now device self m :
  dict_data (entity_description self) = None ->
  (key (entity_description self) =? "api_token_expires_at")%string = false ->
  (key (entity_description self) =? "battery_charge_level")%string = false ->
  (key (entity_description self) =? "estimated_fully_charged_time")%string = false ->
  existsb (String.eqb (key (entity_description self)))
          ["estimate_full_charge_range"; "estimate_full_charge_range_miles"] = true ->
  max_value (entity_description self) = Some m ->
  plausible m (_attr_native_value self) ->
  fst (state now device self) =
  full_charge_range (fst (related_fields device (entity_description self)))
                    (snd (related_fields device (entity_description self))).
Proof.
  intros Hdict Htoken Hbattery Htime Hkey Hmax Hpl. enter_state.
  rewrite step_dict_none, step_token_skip, step_unknown by assumption.
  rewrite step_battery_skip by assumption.
  remember (_attr_native_value self) as v eqn:Hv. symmetry in Hv.
  destruct Hpl as [b Hb | z Hz | f Hf | s z Hs Hz]; cbn [Py.is_None].
  - rewrite (step_max_other _ _ _ m) by (assumption || rewrite Hv; reflexivity).
    rewrite Hv. cbn [Py.gt_int].
    destruct (Z.ltb_spec m (Py.of_bool b)); [lia | derive_full_range].
  - rewrite (step_max_other _ _ _ m) by (assumption || rewrite Hv; reflexivity).
    rewrite Hv. cbn [Py.gt_int].
    destruct (Z.ltb_spec m z); [lia | derive_full_range].
  - rewrite (step_max_other _ _ _ m) by (assumption || rewrite Hv; reflexivity).
    rewrite Hv. cbn [Py.gt_int]. rewrite Hf. derive_full_range.
  - rewrite (step_max_str _ _ _ m s) by assumption. rewrite Hs.
    destruct (Z.ltb_spec m z); [lia | derive_full_range].
Qed.

Lemma full_range_reached_table now device self d m :
  d = descr_estimate_full_charge_range \/ d = descr_estimate_full_charge_range_miles ->
  entity_description self = d ->
  max_value d = Some m ->
  plausible m (_attr_native_value self) ->
  fst (state now device self) =
  full_charge_range (fst (related_fields device d)) (snd (related_fields device d)).
Proof.
  intros Hkey Hd Hmax Hpl. rewrite <- Hd in *.
  apply (full_range_reached now device self m); try assumption;
    destruct Hkey as [-> | ->]; reflexivity.
Qed.

Lemma full_charge_range_missing bl er :
  bl = PNone \/ bl = PBool false \/ er = PNone \/ er = PBool false ->
  full_charge_range bl er = Ok PNone.
Proof.
  unfold full_charge_range.
  destruct bl as [ | [ | ] | | | | ], er as [ | [ | ] | | | | ];
    intros H; try reflexivity;
    decompose [or] H; discriminate.
Qed.

Lemma full_charge_range_present bl er b e :
  bl <> PNone -> bl <> PBool false -> er <> PNone -> er <> PBool false ->
  Py.int bl = Ok b -> Py.int er = Ok e ->
  full_charge_range bl er = round_range_per_level e b.
Proof.
  unfold full_charge_range, rbind. intros B1 B2 E1 E2 Hb He.
  rewrite Hb, He.
  destruct bl as [ | [ | ] | | | | ], er as [ | [ | ] | | | | ];
    congruence || reflexivity.
Qed.

(** C3. For the two full-charge-range keys, once the raw value has passed
    the rules for unknown and implausible values: [state] returns [None]
    whenever either related field is [None] or [False], and otherwise
    returns [round(estimate_range / battery_level * 100)] computed from the
    two related fields converted to integers; a battery level of 50 with an
    estimated range of 200 gives 400. *)
Theorem full_charge_range_state now device self d m :
  d = descr_estimate_full_charge_range \/ d = descr_estimate_full_charge_range_miles ->
  entity_description self = d ->
  max_value d = Some m ->
  plausible m (_attr_native_value self) ->
  let battery_level := fst (related_fields device d) in
  let estimate_range := snd (related_fields device d) in
  ((battery_level = PNone \/ battery_level = PBool false
    \/ estimate_range = PNone \/ estimate_range = PBool false) ->
   fst (state now device self) = Ok PNone)
  /\ (battery_level <> PNone -> battery_level <> PBool false ->
      estimate_range <> PNone -> estimate_range <> PBool false ->
      forall b e, Py.int battery_level = Ok b -> Py.int estimate_range = Ok e ->
      fst (state now device self) = round_range_per_level e b)
  /\ round_range_per_level 200 50 = Ok (PInt 400).
Proof.
  intros Hkey Hd Hmax Hpl. cbv zeta.
  rewrite (full_range_reached_table now device self d m) by assumption.
  split; [ | split; [ | reflexivity]].
  - apply full_charge_range_missing.
  - intros B1 B2 E1 E2 b e. now apply full_charge_range_present.
Qed.

Lemma full_charge_range_state_witness :
  fst (state sample_now (sample_device (PInt 50) (PInt 200))
         (sample_sensor descr_estimate_full_charge_range (PInt 200)))
  = Ok (PInt 400).
Proof.
  destruct (full_charge_range_state sample_now (sample_device (PInt 50) (PInt 200))
              (sample_sensor descr_estimate_full_charge_range (PInt 200))
              descr_estimate_full_charge_range 660)
    as (_ & H & _).
  - left. reflexivity.
  - reflexivity.
  - reflexivity.
  - apply plausible_int. lia.
  - apply (H ltac:(discriminate) ltac:(discriminate) ltac:(discriminate)
             ltac:(discriminate) 50 200); reflexivity.
Defined.

(** C10. For the two full-charge-range keys the guard before the derivation
    rejects only [None] and [False]: with a battery level of [0] (or the
    string "0") and an estimated range that is there, [state] reaches the
    division and raises [ZeroDivisionError] instead of returning [None]. *)
Theorem full_charge_range_zero_division now device self d m :
  d = descr_estimate_full_charge_range \/ d = descr_estimate_full_charge_range_miles ->
  entity_description self = d ->
  max_value d = Some m ->
  plausible m (_attr_native_value self) ->
  let battery_level := fst (related_fields device d) in
  let estimate_range := snd (related_fields device d) in
  battery_level = PInt 0 \/ battery_level = PStr "0" ->
  estimate_range <> PNone -> estimate_range <> PBool false ->
  (exists e, Py.int estimate_range = Ok e) ->
  fst (state now device self) = Raise ZeroDivisionError.
Proof.
  intros Hkey Hd Hmax Hpl. cbv zeta. intros Hbl E1 E2 [e He].
  rewrite (full_range_reached_table now device self d m) by assumption.
  rewrite (full_charge_range_present _ _ 0 e); try assumption.
  - reflexivity.
  - destruct Hbl as [-> | ->]; discriminate.
  - destruct Hbl as [-> | ->]; discriminate.
  - destruct Hbl as [-> | ->]; reflexivity.
Qed.

Lemma full_charge_range_zero_division_witness :
  fst (state sample_now (sample_device (PStr "0") (PInt 200))
         (sample_sensor descr_estimate_full_charge_range_miles (PInt 200)))
  = Raise ZeroDivisionError.
Proof.
  apply (full_charge_range_zero_division sample_now
           (sample_device (PStr "0") (PInt 200))
           (sample_sensor descr_estimate_full_charge_range_miles (PInt 200))
           descr_estimate_full_charge_range_miles 410).
  - right. reflexivity.
  - reflexivity.
  - reflexivity.
  - apply plausible_int. lia.
  - right. reflexivity.
  - discriminate.
  - discriminate.
  - exists 200. reflexivity.
Defined.

(** ** The estimated time of full charge *)

(** C4. For the [estimated_fully_charged_time] key and a raw value whose
    integer value [int(v)] is [n] (an integer raw value is its own): when [n]
    is zero or negative [state] returns the string "Not charging"; when [n]
    is positive it returns the current time with seconds and microseconds
    zeroed, plus [n] minutes, provided that instant is one a [datetime] can
    hold. *)
Theorem charged_time_state now device self n :
  entity_description self = descr_estimated_fully_charged_time ->
  Py.int (_attr_native_value self) = Ok n ->
  Datetime.in_range now = true ->
  let target := Datetime.replace now 0 0 + n * Datetime.us_per_minute in
  (n <= 0 -> state now device self = (Ok (PStr "Not charging"), self))
  /\ (0 < n -> Datetime.in_range target = true ->
      state now device self = (Ok (PDatetime target), self)
      /\ Datetime.second target = 0 /\ Datetime.microsecond target = 0).
Proof.
  intros Hd Hv Hnow target.
  assert (E : state now device self =
              match Py.int (_attr_native_value self) with
              | Ok value =>
                  if 0 <? value then
                    match (delta <- Datetime.mk_timedelta value 0 ;;
                           Datetime.add (Datetime.replace now 0 0) delta)%result with
                    | Ok t => (Ok (PDatetime t), self)
                    | Raise e => (Raise e, self)
                    end
                  else (Ok (PStr "Not charging"), self)
              | Raise e => (Raise e, self)
              end).
  { enter_state. rewrite Hd.
    rewrite step_dict_none, step_token_skip, step_unknown by reflexivity.
    assert (Py.is_None (_attr_native_value self) = false) as ->
        by (destruct (_attr_native_value self); (reflexivity || discriminate Hv)).
    rewrite step_battery_skip, step_max_none, step_charged_time by reflexivity.
    rewrite Hv.
    destruct (0 <? n); [ | reflexivity].
    destruct (delta <- Datetime.mk_timedelta n 0;;
              Datetime.add (Datetime.replace now 0 0) delta)%result; reflexivity. }
  rewrite E, Hv. split.
  - intros Hn. destruct (Z.ltb_spec 0 n); [lia | reflexivity].
  - intros Hn Ht. split.
    + destruct (Z.ltb_spec 0 n); [ | lia].
      rewrite (mk_timedelta_minutes now n) by assumption.
      unfold rbind, Datetime.add. fold target. rewrite Ht. reflexivity.
    + unfold target. rewrite replace_zero_truncates.
      rewrite (Z.mul_comm n), <- Z.mul_add_distr_l.
      split; [apply minute_multiple_second | apply minute_multiple_microsecond].
Qed.

Lemma charged_time_state_witness :
  state sample_now (sample_device PNone PNone)
        (sample_sensor descr_estimated_fully_charged_time (PInt 30))
  = (Ok (PDatetime (Datetime.mk 2024 1 15 10 50 0 0)),
     sample_sensor descr_estimated_fully_charged_time (PInt 30)).
Proof.
  destruct (charged_time_state sample_now (sample_device PNone PNone)
              (sample_sensor descr_estimated_fully_charged_time (PInt 30)) 30)
    as (_ & H).
  - reflexivity.
  - reflexivity.
  - reflexivity.
  - apply H; [lia | reflexivity].
Defined.

(** The same sensor at rest: a raw value of zero. *)
Example charged_time_not_charging :
  state sample_now (sample_device PNone PNone)
        (sample_sensor descr_estimated_fully_charged_time (PInt 0))
  = (Ok (PStr "Not charging"),
     sample_sensor descr_estimated_fully_charged_time (PInt 0)).
Proof. reflexivity. Qed.

(** ** The odometer *)

(** C5, as the code has it. For the odometer key: whenever the integer
    value of a raw reading that is a number (an [int], a [bool] or a
    [float]) exceeds 1000, [state] divides the reading by 1000, truncates to
    an integer, and caches and returns it (1500 gives 1). A reading whose
    integer value is at most 1000 goes on to the rounding rule at zero
    digits: an integer is returned unchanged (500 gives 500) and a [bool]
    as the integer it equals; a float, and a numeric string, is returned as
    the float that [round(float(reading), 0)] gives (999.5 gives 1000.0). *)
Theorem odometer_state now device self :
  entity_description self = descr_current_odometer_meters ->
  (forall n,
      Py.isinstance_str (_attr_native_value self) = false ->
      Py.int (_attr_native_value self) = Ok n -> 1000 < n ->
      state now device self =
      match km_of_meters (_attr_native_value self) with
      | Ok km => (Ok km, set_attr_native_value self km)
      | Raise e => (Raise e, self)
      end)
  /\ (forall x, _attr_native_value self = PInt x -> x <= 1000 ->
        state now device self = (Ok (PInt x), self))
  /\ (forall b, _attr_native_value self = PBool b ->
        state now device self = (Ok (PInt (Py.of_bool b)), self))
  /\ (forall f n, _attr_native_value self = PFloat f ->
        PyFloat.trunc f = Ok n -> n <= 1000 ->
        state now device self =
        match PyFloat.round_ndigits f 0 with
        | Ok r => (Ok (PFloat r), self)
        | Raise e => (Raise e, self)
        end)
  /\ (forall s n, _attr_native_value self = PStr s ->
        PyStr.to_int s = Ok n -> n <= 1000 ->
        state now device self =
        match (f <- PyStr.to_float s ;; PyFloat.round_ndigits f 0)%result with
        | Ok r => (Ok (PFloat r), self)
        | Raise e => (Raise e, self)
        end)
  /\ km_of_meters (PInt 1500) = Ok (PInt 1)
  /\ PyFloat.round_ndigits (PyFloat.of_ratio false 1999 2) 0
     = Ok (PyFloat.of_ratio false 1000 1).
Proof.
  intros Hd.
  assert (Hodo : forall v n,
             _attr_native_value self = v -> Py.is_None v = false ->
             Py.int v = Ok n -> n <= 1000 ->
             forall k, state now device self
                       = call (bind (state_round descr_current_odometer_meters) k) self).
  { intros v n Hv Hnone Hn Hle k. enter_state. rewrite Hd.
    rewrite step_dict_none, step_token_skip, step_unknown by reflexivity.
    rewrite Hv, Hnone.
    rewrite step_battery_skip, step_max_none, step_charged_time_skip,
      step_full_range_skip, step_odometer by reflexivity.
    rewrite Hv, Hn.
    destruct (Z.ltb_spec 1000 n); [lia | ].
    unfold call. unfold state_round at 1 2.
    cbn [round_digits descr_current_odometer_meters].
    rewrite !bind_assoc, !bind_asks, Hv.
    destruct ((0 =? 0) && Py.isinstance_int v).
    - rewrite !bind_assoc, !bind_lift. destruct (Py.int v); reflexivity.
    - rewrite !bind_assoc, !bind_lift.
      destruct (Py.float v) as [f | e]; [ | reflexivity].
      rewrite !bind_assoc, !bind_lift.
      destruct (PyFloat.round_ndigits f 0); reflexivity. }
  split; [ | split; [ | split; [ | split; [ | split; [ | split; reflexivity]]]]].
  - intros n Hstr Hn Hx. enter_state. rewrite Hd.
    rewrite step_dict_none, step_token_skip, step_unknown by reflexivity.
    assert (Py.is_None (_attr_native_value self) = false) as ->
        by (destruct (_attr_native_value self); (reflexivity || discriminate Hn)).
    rewrite step_battery_skip, step_max_none, step_charged_time_skip,
      step_full_range_skip, step_odometer by reflexivity.
    rewrite Hn.
    destruct (Z.ltb_spec 1000 n); [ | lia].
    unfold km_of_meters, rbind.
    destruct (Py.truediv_int (_attr_native_value self) 1000) as [km | e];
      [ | reflexivity].
    destruct (PyFloat.trunc km) as [q | e]; [ | reflexivity].
    rewrite (step_round_int_zero _ _ _ q) by reflexivity. reflexivity.
  - intros x Hv Hx.
    rewrite (Hodo (PInt x) x Hv eq_refl eq_refl Hx (fun _ => pass)).
    unfold call.
    rewrite (step_round_int_zero _ _ _ x) by (reflexivity || assumption).
    reflexivity.
  - intros b Hv.
    assert (Hb : Py.of_bool b <= 1000) by (destruct b; cbn; lia).
    rewrite (Hodo (PBool b) (Py.of_bool b) Hv eq_refl eq_refl Hb (fun _ => pass)).
    unfold call.
    rewrite (round_rule_bool _ self b) by (reflexivity || assumption).
    reflexivity.
  - intros f n Hv Hn Hle.
    rewrite (Hodo (PFloat f) n Hv eq_refl Hn Hle (fun _ => pass)).
    unfold call.
    rewrite (round_rule_float _ self f) by (reflexivity || assumption).
    destruct (PyFloat.round_ndigits f 0); reflexivity.
  - intros s n Hv Hn Hle.
    rewrite (Hodo (PStr s) n Hv eq_refl Hn Hle (fun _ => pass)).
    unfold call.
    rewrite (round_rule_str _ self s) by (reflexivity || assumption).
    destruct (f <- PyStr.to_float s ;; PyFloat.round_ndigits f 0)%result;
      reflexivity.
Qed.

Lemma odometer_state_witness :
  state sample_now (sample_device PNone PNone)
        (sample_sensor descr_current_odometer_meters (PInt 1500))
  = (Ok (PInt 1), sample_sensor descr_current_odometer_meters (PInt 1))
  /\ state sample_now (sample_device PNone PNone)
           (sample_sensor descr_current_odometer_meters (PInt 500))
     = (Ok (PInt 500), sample_sensor descr_current_odometer_meters (PInt 500))
  /\ state sample_now (sample_device PNone PNone)
           (sample_sensor descr_current_odometer_meters
              (PFloat (PyFloat.of_ratio false 1999 2)))
     = (Ok (PFloat (PyFloat.of_ratio false 1000 1)),
        sample_sensor descr_current_odometer_meters
          (PFloat (PyFloat.of_ratio false 1999 2))).
Proof.
  split; [ | split].
  - destruct (odometer_state sample_now (sample_device PNone PNone)
                (sample_sensor descr_current_odometer_meters (PInt 1500)))
      as (H & _); [reflexivity | ].
    apply (H 1500); [reflexivity | reflexivity | lia].
  - destruct (odometer_state sample_now (sample_device PNone PNone)
                (sample_sensor descr_current_odometer_meters (PInt 500)))
      as (_ & H & _); [reflexivity | ].
    apply (H 500); [reflexivity | lia].
  - destruct (odometer_state sample_now (sample_device PNone PNone)
                (sample_sensor descr_current_odometer_meters
                   (PFloat (PyFloat.of_ratio false 1999 2))))
      as (_ & _ & _ & H & _); [reflexivity | ].
    apply (H (PyFloat.of_ratio false 1999 2) 999); [reflexivity | reflexivity | lia].
Defined.

(** C5, as stated, fails: the reading 999.5 is at most 1000 and is not
    returned unchanged; the rounding rule makes it 1000.0. *)
Lemma odometer_float_is_rounded :
  Py.gt_int (PFloat (PyFloat.of_ratio false 1999 2)) 1000 = Ok false
  /\ fst (state sample_now (sample_device PNone PNone)
            (sample_sensor descr_current_odometer_meters
               (PFloat (PyFloat.of_ratio false 1999 2))))
     = Ok (PFloat (PyFloat.of_ratio false 1000 1))
  /\ fst (state sample_now (sample_device PNone PNone)
            (sample_sensor descr_current_odometer_meters
               (PFloat (PyFloat.of_ratio false 1999 2))))
     <> Ok (PFloat (PyFloat.of_ratio false 1999 2)).
Proof.
  split; [reflexivity | split; [reflexivity | ]].
  intros H. vm_compute in H. discriminate H.
Qed.

(** Readings in meters of everyday size: the quotient is the integer
    quotient. *)
Example km_of_meters_samples :
  map km_of_meters [PInt 1001; PInt 1999; PInt 20000; PInt 123456789]
  = [Ok (PInt 1); Ok (PInt 1); Ok (PInt 20); Ok (PInt 123456)].
Proof. reflexivity. Qed.

(** ** The battery charge level *)

(** C6. For the [battery_charge_level] key a string raw value has ".0"
    stripped before the conversion to an integer, so "85.0" gives 85; the
    stripping is [replace], which removes every ".0" and not a trailing one
    only: "1.05" gives 15. *)
Theorem battery_level_state now device self s n :
  entity_description self = descr_battery_charge_level ->
  _attr_native_value self = PStr s ->
  PyStr.to_int (PyStr.replace s ".0" "") = Ok n ->
  n <= 100 ->
  state now device self = (Ok (PInt n), set_attr_native_value self (PInt n))
  /\ PyStr.replace "85.0" ".0" "" = "85"
  /\ PyStr.replace "1.05" ".0" "" = "15".
Proof.
  intros Hd Hv Hn Hle. split; [ | split; reflexivity].
  enter_state. rewrite Hd.
  rewrite step_dict_none, step_token_skip, step_unknown by reflexivity.
  rewrite Hv. cbn [Py.is_None].
  rewrite (step_battery_str _ _ _ s) by (reflexivity || assumption).
  rewrite Hn.
  rewrite (step_max_other _ _ _ 100) by reflexivity.
  cbn [_attr_native_value set_attr_native_value Py.gt_int].
  destruct (Z.ltb_spec 100 n); [lia | ].
  rewrite step_charged_time_skip, step_full_range_skip, step_odometer_skip
    by reflexivity.
  rewrite (step_round_int_zero _ _ _ n) by reflexivity. reflexivity.
Qed.

Lemma battery_level_state_witness :
  state sample_now (sample_device PNone PNone)
        (sample_sensor descr_battery_charge_level (PStr "1.05"))
  = (Ok (PInt 15), sample_sensor descr_battery_charge_level (PInt 15)).
Proof.
  apply (battery_level_state sample_now (sample_device PNone PNone)
           (sample_sensor descr_battery_charge_level (PStr "1.05")) "1.05" 15);
    [reflexivity | reflexivity | reflexivity | lia].
Defined.

(** A level above the maximum, written with its ".0". *)
Example battery_level_above_max :
  fst (state sample_now (sample_device PNone PNone)
         (sample_sensor descr_battery_charge_level (PStr "101.0")))
  = Ok PNone.
Proof. reflexivity. Qed.

Example battery_level_85 :
  state sample_now (sample_device PNone PNone)
        (sample_sensor descr_battery_charge_level (PStr "85.0"))
  = (Ok (PInt 85), sample_sensor descr_battery_charge_level (PInt 85)).
Proof. reflexivity. Qed.

(** ** Reading the state twice *)

(** In the table the odometer rule takes the odometer and nothing else. *)
Lemma odometer_rule_table d :
  In d POLESTAR_SENSOR_TYPES ->
  PyStr.contains (key d) "current_odometer_meters" = true ->
  d = descr_current_odometer_meters.
Proof.
  intros Hin H. simpl in Hin.
  repeat (destruct Hin as [Hin | Hin];
          [rewrite <- Hin in H |- *; first [reflexivity | discriminate H] | ]).
  contradiction.
Qed.

(** Away from the odometer, [state] either leaves the entity as it is, or
    replaces a cached string by the integer it converts to, and then a read
    of the converted entity behaves as the first read did. *)
Lemma state_keeps_or_converts now device self :
  PyStr.contains (key (entity_description self)) "current_odometer_meters" = false ->
  (snd (state now device self) = self
   /\ cached_after (entity_description self) (_attr_native_value self)
      = _attr_native_value self)
  \/ exists s n,
      _attr_native_value self = PStr s
      /\ cached_after (entity_description self) (_attr_native_value self) = PInt n
      /\ snd (state now device self) = set_attr_native_value self (PInt n)
      /\ state now device (set_attr_native_value self (PInt n)) = state now device self.
Proof.
  intros Hodo.
  pose proof (readonly_rest now device _ Hodo) as Hrest.
  unfold state, call, state_body.
  setoid_rewrite bind_asks. setoid_rewrite snd_call_outcome.
  cbn [entity_description set_attr_native_value].
  set (d := entity_description self) in *.
  match goal with
  | |- context [bind (state_max_value d) ?k] => set (rest := k) in *
  end.
  destruct (dict_data d) as [dd | ] eqn:Hdict.
  { left. rewrite (step_dict_some _ _ _ _ dd) by assumption.
    split; [reflexivity | ].
    unfold cached_after, converts. rewrite Hdict.
    destruct (_attr_native_value self); reflexivity. }
  destruct (key d =? "api_token_expires_at")%string eqn:Htoken.
  { left. rewrite step_dict_none, step_token by assumption.
    split; [reflexivity | ].
    unfold cached_after, converts. rewrite Hdict, Htoken.
    destruct (_attr_native_value self); reflexivity. }
  assert (Hother : Py.isinstance_str (_attr_native_value self) = false ->
                   snd (bind (state_dict_data device d) (fun _ =>
                        bind (state_token_expiry device d) (fun _ =>
                        bind state_unknown (fun _ =>
                        bind (state_battery_charge_level d) (fun _ =>
                        bind (state_max_value d) rest)))) self) = self).
  { intros Hv.
    rewrite step_dict_none, step_token_skip, step_unknown by assumption.
    destruct (Py.is_None (_attr_native_value self)); [reflexivity | ].
    rewrite step_battery_other by assumption.
    destruct (max_value d) as [m | ] eqn:Hmax.
    - rewrite (step_max_other _ _ _ m) by assumption.
      destruct (Py.gt_int (_attr_native_value self) m) as [[ | ] | e];
        try reflexivity. apply Hrest.
    - rewrite step_max_none by assumption. apply Hrest. }
  destruct (_attr_native_value self) as [ | b | z | f | s | t] eqn:Hv;
    try (left; split; [apply Hother; reflexivity | reflexivity]).
  clear Hother.
  assert (Hint : forall n,
             bind (state_dict_data device d) (fun _ =>
             bind (state_token_expiry device d) (fun _ =>
             bind state_unknown (fun _ =>
             bind (state_battery_charge_level d) (fun _ =>
             bind (state_max_value d) rest))))
               (set_attr_native_value self (PInt n))
             = bind (state_max_value d) rest (set_attr_native_value self (PInt n))).
  { intros n.
    rewrite step_dict_none, step_token_skip, step_unknown by assumption.
    cbn [Py.is_None _attr_native_value set_attr_native_value].
    rewrite step_battery_other by reflexivity. reflexivity. }
  assert (Hkeep : forall n,
             snd (bind (state_max_value d) rest (set_attr_native_value self (PInt n)))
             = set_attr_native_value self (PInt n)).
  { intros n. destruct (max_value d) as [m | ] eqn:Hmax.
    - rewrite (step_max_other _ _ _ m) by (assumption || reflexivity).
      destruct (Py.gt_int _ m) as [[ | ] | e]; try reflexivity. apply Hrest.
    - rewrite step_max_none by assumption. apply Hrest. }
  rewrite step_dict_none, step_token_skip, step_unknown by assumption.
  rewrite Hv. cbn [Py.is_None].
  unfold cached_after, converts, converted. rewrite Hdict, Htoken.
  destruct (key d =? "battery_charge_level")%string eqn:Hbattery;
    cbn [negb andb orb].
  - rewrite (step_battery_str _ _ _ s) by assumption.
    destruct (PyStr.to_int (PyStr.replace s ".0" "")) as [n | e];
      [ | left; split; reflexivity].
    right. exists s, n. rewrite Hint, Hkeep. repeat split.
  - rewrite step_battery_skip by assumption.
    destruct (max_value d) as [m | ] eqn:Hmax.
    + rewrite (step_max_str _ _ _ m s) by assumption.
      destruct (PyStr.to_int s) as [n | e]; [ | left; split; reflexivity].
      right. exists s, n. rewrite Hint.
      rewrite (step_max_other _ _ _ m) by (assumption || reflexivity).
      cbn [_attr_native_value set_attr_native_value Py.gt_int].
      destruct (m <? n); repeat split. apply Hrest.
    + left. rewrite step_max_none by assumption.
      split; [apply Hrest | reflexivity].
Qed.

(** C7, as the code has it. For every description whose key the odometer
    rule does not take: a read of [state] changes no attribute of the entity
    but the cached native value, and leaves there [cached_after]: a cached
    string that reaches the battery-level rule or the maximum rule, and that
    [int] accepts (for the battery level, with every ".0" removed), is
    overwritten with the integer [int] gives; every other cached value is
    left as it was.  A second read on the entity so left, with the same
    device data and clock, returns the same result and changes nothing. *)
Theorem state_reread now device self r self' :
  PyStr.contains (key (entity_description self)) "current_odometer_meters" = false ->
  state now device self = (r, self') ->
  self' = set_attr_native_value self
            (cached_after (entity_description self) (_attr_native_value self))
  /\ state now device self' = (r, self').
Proof.
  intros Hodo Hrun.
  destruct (state_keeps_or_converts now device self Hodo)
    as [[Hsame Hcache] | (s & n & Hs & Hcache & Hconv & Hagain)];
    rewrite Hrun in *; cbn [snd] in *; subst self'; rewrite Hcache.
  - split; [ | exact Hrun].
    symmetry. apply set_attr_native_value_same.
  - split; [reflexivity | exact Hagain].
Qed.

Lemma state_reread_witness :
  sample_sensor descr_battery_charge_level (PInt 85)
  = set_attr_native_value (sample_sensor descr_battery_charge_level (PStr "85.0"))
      (PInt 85)
  /\ state sample_now (sample_device PNone PNone)
          (sample_sensor descr_battery_charge_level (PInt 85))
     = (Ok (PInt 85), sample_sensor descr_battery_charge_level (PInt 85)).
Proof.
  apply (state_reread sample_now (sample_device PNone PNone)
           (sample_sensor descr_battery_charge_level (PStr "85.0"))
           (Ok (PInt 85))
           (sample_sensor descr_battery_charge_level (PInt 85)));
    reflexivity.
Defined.

(** What the cache holds after a read, on three samples: a battery level
    with its ".0", a speed as a numeral, a label. *)
Example cached_after_samples :
  cached_after descr_battery_charge_level (PStr "85.0") = PInt 85
  /\ cached_after descr_average_speed_km_per_hour (PStr "87") = PInt 87
  /\ cached_after descr_charging_status (PStr "CHARGING_STATUS_IDLE")
     = PStr "CHARGING_STATUS_IDLE".
Proof. repeat split. Qed.

(** C7, as stated, fails: reading the battery level "85.0" overwrites the
    cached string with the integer 85. *)
Lemma state_assigns_native_value :
  _attr_native_value
    (snd (state sample_now (sample_device PNone PNone)
            (sample_sensor descr_battery_charge_level (PStr "85.0"))))
  <> _attr_native_value (sample_sensor descr_battery_charge_level (PStr "85.0")).
Proof. discriminate. Qed.

(** The odometer rule stores the kilometres over the reading, so a second
    read divides again: 1500000 reads 1500, then 1. *)
Example odometer_read_twice :
  let first := state sample_now (sample_device PNone PNone)
                     (sample_sensor descr_current_odometer_meters (PInt 1500000)) in
  fst first = Ok (PInt 1500)
  /\ fst (state sample_now (sample_device PNone PNone) (snd first)) = Ok (PInt 1).
Proof. split; reflexivity. Qed.

(** ** The unique id *)

(** What [__init__] stores, whether or not it refreshes the value. *)
Lemma init_attributes DOMAIN device d self :
  __init__ DOMAIN device d = Ok self ->
  _attr_unique_id self
  = "polestar_" ++ PyStr.slice_from (-4) (vin device) ++ "-" ++ key d
  /\ entity_description self = d.
Proof.
  unfold __init__, _async_update_attrs. intros H.
  destruct (Py.eq (get_latest_call_code device) (PInt 200)).
  - cbn [description query field_name] in H. unfold rbind in H.
    destruct (get_value device (query d) (field_name d) _);
      [ | discriminate H].
    injection H as <-. split; reflexivity.
  - injection H as <-. split; reflexivity.
Qed.

(** C8, as the code has it. For every description, the entity [__init__]
    builds stores "polestar_" followed by the last four characters of the
    VIN, a hyphen and the key in [_attr_unique_id]; the [unique_id] property
    the host reads is overridden and returns the device id, a hyphen and the
    key; the two agree exactly when the device id is "polestar_" followed by
    the last four characters of the VIN. *)
Theorem unique_id_of_sensor DOMAIN device d self :
  __init__ DOMAIN device d = Ok self ->
  _attr_unique_id self
  = "polestar_" ++ PyStr.slice_from (-4) (vin device) ++ "-" ++ key d
  /\ unique_id device self = id device ++ "-" ++ key d
  /\ (unique_id device self = _attr_unique_id self
      <-> id device = "polestar_" ++ PyStr.slice_from (-4) (vin device)).
Proof.
  intros H. destruct (init_attributes _ _ _ _ H) as [E1 E2].
  unfold unique_id. rewrite E1, E2.
  split; [reflexivity | split; [reflexivity | ]].
  split.
  - intros H'. apply (append_cancel_r _ _ ("-" ++ key d)).
    rewrite H'. symmetry. apply append_assoc.
  - intros ->. apply append_assoc.
Qed.

Lemma unique_id_of_sensor_witness :
  unique_id (sample_device PNone (PStr "YSMYKEAE3RB000123"))
            (set_attr_native_value (sample_sensor descr_vin PNone)
                                   (PStr "YSMYKEAE3RB000123"))
  = "YSMYKEAE-vin".
Proof.
  apply (unique_id_of_sensor "polestar_api"
           (sample_device PNone (PStr "YSMYKEAE3RB000123")) descr_vin).
  reflexivity.
Defined.

(** C8, as stated, fails: for a device whose id is the head of its VIN the
    unique id exposed is "YSMYKEAE-vin", not "polestar_0123-vin". *)
Lemma unique_id_is_not_vin_based :
  exists self,
    __init__ "polestar_api" (sample_device PNone (PStr "YSMYKEAE3RB000123")) descr_vin
    = Ok self
    /\ unique_id (sample_device PNone (PStr "YSMYKEAE3RB000123")) self
       <> "polestar_"
          ++ PyStr.slice_from (-4) (vin (sample_device PNone (PStr "YSMYKEAE3RB000123")))
          ++ "-" ++ key descr_vin.
Proof.
  eexists. split; [reflexivity | discriminate].
Qed.

(** ** Failures of the update cycle *)

Section UpdateFailure.

Variable refresh : Polestar -> result Datatypes.unit * Polestar.

(** A failure inside the [try] block comes before the assignment. *)
Lemma async_update_try_failure device self e :
  fst (async_update_try refresh device self) = Raise e ->
  snd (snd (async_update_try refresh device self)) = self.
Proof.
  unfold async_update_try.
  destruct (refresh device) as [[u | e1] device1]; [ | reflexivity].
  destruct (get_value device1 _ _ _) as [v | e2]; [discriminate | reflexivity].
Qed.

(** The failures of the [try] block: the refresh raises, or it succeeds and
    reading the value raises. *)
Lemma async_update_try_failure_iff device self e :
  fst (async_update_try refresh device self) = Raise e <->
  fst (refresh device) = Raise e
  \/ (exists u, fst (refresh device) = Ok u)
     /\ get_value (snd (refresh device)) (query (description self))
                  (field_name (description self)) (get_skip_cache self) = Raise e.
Proof.
  unfold async_update_try.
  destruct (refresh device) as [[u | e1] device1]; cbn [fst snd].
  - destruct (get_value device1 _ _ _) as [v | e2]; cbn [fst]; split.
    + discriminate.
    + intros [H | [_ H]]; discriminate H.
    + intros H. right. split; [now exists u | congruence].
    + intros [H | [_ H]]; [discriminate H | congruence].
  - split.
    + intros H. now left.
    + intros [H | [[u H] _]]; [exact H | discriminate H].
Qed.

(** C9. For every failure raised during the update cycle, an exception [e]
    of class [Exception] raised by the refresh of the device or by the read
    of the value: [async_update] returns normally, logs one warning, sets the
    client's next scheduled refresh to 60 seconds from now, and leaves the
    sensor, its cached native value included, as it was. *)
Theorem async_update_failure now device log self e :
  fst (async_update_try refresh device self) = Raise e ->
  isinstance_Exception e = true ->
  Datetime.in_range (now + 60 * Datetime.us_per_second) = true ->
  exists device',
    async_update refresh now device log self
    = (Ok tt,
       (device',
        (log ++ [(WARNING, "Failed to update sensor async update")])%list,
        self))
    /\ next_update device' = now + 60 * Datetime.us_per_second.
Proof.
  intros Hfail Hexc Hrange.
  pose proof (async_update_try_failure device self e Hfail) as Hself.
  unfold async_update.
  destruct (async_update_try refresh device self) as [[u | e'] [device1 self1]].
  - discriminate Hfail.
  - cbn [fst snd] in Hfail, Hself. injection Hfail as ->. subst self1.
    rewrite Hexc.
    change (delta <- Datetime.mk_timedelta 0 60;; Datetime.add now delta)%result
      with (Datetime.add now (60 * Datetime.us_per_second)).
    unfold Datetime.add. rewrite Hrange.
    eexists. split; reflexivity.
Qed.

(** What is not an [Exception], a cancellation for one, is not caught. *)
Lemma async_update_propagates now device log self e :
  fst (async_update_try refresh device self) = Raise e ->
  isinstance_Exception e = false ->
  fst (async_update refresh now device log self) = Raise e.
Proof.
  intros Hfail Hexc. unfold async_update.
  destruct (async_update_try refresh device self) as [[u | e'] [device1 self1]].
  - discriminate Hfail.
  - cbn [fst] in Hfail. injection Hfail as ->. rewrite Hexc. reflexivity.
Qed.

End UpdateFailure.

Lemma async_update_failure_witness :
  exists device',
    async_update failing_refresh sample_now (sample_device PNone (PInt 42)) []
                 (sample_sensor descr_charging_power_watts (PInt 7))
    = (Ok tt,
       (device',
        [(WARNING, "Failed to update sensor async update")],
        sample_sensor descr_charging_power_watts (PInt 7)))
    /\ next_update device' = Datetime.mk 2024 1 15 10 21 45 123456.
Proof.
  apply (async_update_failure failing_refresh sample_now
           (sample_device PNone (PInt 42)) []
           (sample_sensor descr_charging_power_watts (PInt 7))
           (OtherException "TimeoutError"));
    reflexivity.
Defined.

(** * Further properties *)

(** ** What a read of the state can assign *)

Lemma frame_readonly {A : Type} (m : M A) : readonly m -> frame m.
Proof.
  intros H self. rewrite (H self). symmetry. apply set_attr_native_value_same.
Qed.

Lemma frame_assign (v : PyVal) : frame (assign_attr_native_value v).
Proof. intros self. reflexivity. Qed.

Lemma frame_bind {A B : Type} (m : M A) (k : A -> M B) :
  frame m -> (forall a, frame (k a)) -> frame (bind m k).
Proof.
  intros Hm Hk self. unfold bind. specialize (Hm self).
  destruct (m self) as [[a | r | e] self1]; cbn [snd] in *; try exact Hm.
  rewrite (Hk a self1). cbn [_attr_native_value set_attr_native_value].
  rewrite Hm. reflexivity.
Qed.

Lemma frame_when (b : bool) (m : M Datatypes.unit) : frame m -> frame (when b m).
Proof.
  intros Hm. destruct b; [exact Hm | apply frame_readonly, readonly_pass].
Qed.

Ltac frame_cases :=
  repeat match goal with
         | |- frame (match ?x with _ => _ end) => destruct x
         | |- frame (if ?b then _ else _) => destruct b
         | |- forall _, _ => intro
         | |- frame (bind _ _) => apply frame_bind
         | |- frame (when _ _) => apply frame_when
         | |- frame (assign_attr_native_value _) => apply frame_assign
         | |- frame _ => apply frame_readonly; solve [auto with readonly]
         end.

Lemma frame_state_body now device : frame (state_body now device).
Proof.
  unfold state_body, state_dict_data, state_token_expiry, state_unknown,
    state_battery_charge_level, state_max_value,
    state_estimated_fully_charged_time, state_estimate_full_charge_range,
    state_odometer, state_round.
  cbv zeta. frame_cases.
Qed.

Lemma state_keeps_description now device self :
  entity_description (snd (state now device self)) = entity_description self.
Proof.
  unfold state, call. rewrite snd_call_outcome.
  rewrite (frame_state_body now device self). reflexivity.
Qed.

(** X1. For every description, the odometer included, and every raw value,
    whether [state] returns or raises: a read assigns no attribute of the
    entity but the cached native value; the descriptions, the stored unique
    id and the entity id stay as they were. *)
Theorem state_frame now device self :
  let self' := snd (state now device self) in
  self' = set_attr_native_value self (_attr_native_value self')
  /\ entity_description self' = entity_description self
  /\ description self' = description self
  /\ _attr_unique_id self' = _attr_unique_id self
  /\ entity_id self' = entity_id self.
Proof.
  cbv zeta. unfold state, call. rewrite snd_call_outcome.
  pose proof (frame_state_body now device self) as H.
  split; [exact H | ]. rewrite H. repeat split.
Qed.

(** ** Label dictionaries *)

Lemma dict_get_miss dd k default :
  (forall k' label, In (k', label) dd -> Py.eq k' k = false) ->
  Py.dict_get dd k default = default.
Proof.
  induction dd as [ | [k' label] dd IH]; intros H; [reflexivity | ].
  cbn [Py.dict_get]. rewrite (H k' label) by now left.
  apply IH. intros k'' l Hin. apply (H k'' l). now right.
Qed.

(** [dict.get] returns the label of the first item whose key equals the
    argument, and the default when there is none. *)
Lemma dict_get_filter dd k default :
  Py.dict_get dd k default
  = match filter (fun item => Py.eq (fst item) k) dd with
    | [] => default
    | (_, label) :: _ => label
    end.
Proof.
  induction dd as [ | [k' label] dd IH]; [reflexivity | ].
  cbn [Py.dict_get filter fst]. destruct (Py.eq k' k); [reflexivity | exact IH].
Qed.

(** X2. A sensor with a label dictionary, other than the API status, never
    raises and leaves the entity as it is, whatever the raw value: when one
    key of the dictionary equals the raw value (a dictionary holds no two
    equal keys) the read is the label of that key, and when none does,
    [None] included, the read is the raw value itself. *)
Theorem label_state now device self dd :
  dict_data (entity_description self) = Some dd ->
  (key (entity_description self) =? "api_status_code")%string = false ->
  let v := _attr_native_value self in
  let found := filter (fun item => Py.eq (fst item) v) dd in
  (forall k label, found = [(k, label)] -> state now device self = (Ok label, self))
  /\ (found = [] -> state now device self = (Ok v, self)).
Proof.
  intros Hdict Hkey v found.
  assert (E : state now device self = (Ok (Py.dict_get dd v v), self)).
  { enter_state. rewrite (step_dict_some _ _ _ _ dd) by assumption.
    rewrite Hkey. reflexivity. }
  rewrite E, dict_get_filter. fold found. split.
  - intros k label ->. reflexivity.
  - intros ->. reflexivity.
Qed.

Lemma label_state_witness :
  state sample_now (sample_device PNone PNone)
        (sample_sensor descr_charging_status (PStr "CHARGING_STATUS_IDLE"))
  = (Ok (PStr "Idle"),
     sample_sensor descr_charging_status (PStr "CHARGING_STATUS_IDLE")).
Proof.
  destruct (label_state sample_now (sample_device PNone PNone)
              (sample_sensor descr_charging_status (PStr "CHARGING_STATUS_IDLE"))
              CHARGING_STATUS_DICT)
    as (H & _).
  - reflexivity.
  - reflexivity.
  - apply (H (PStr "CHARGING_STATUS_IDLE") (PStr "Idle")). reflexivity.
Defined.

(** A status the dictionary does not list comes back as it is. *)
Example charging_status_unlisted :
  fst (state sample_now (sample_device PNone PNone)
         (sample_sensor descr_charging_status (PStr "CHARGING_STATUS_PAUSED")))
  = Ok (PStr "CHARGING_STATUS_PAUSED").
Proof. reflexivity. Qed.

(** In the two dictionaries of the table read by key of the raw value no
    two keys are equal: whatever the raw value, at most one key equals it,
    so one of the two cases above applies. *)
Lemma charging_dicts_one_key dd v :
  In dd [CHARGING_CONNECTION_STATUS_DICT; CHARGING_STATUS_DICT] ->
  (List.length (filter (fun item => Py.eq (fst item) v) dd) <= 1)%nat.
Proof.
  intros Hin. cbn [In] in Hin.
  destruct Hin as [<- | [<- | []]];
    destruct v as [ | b | z | f | s | t];
    try (cbn [filter fst Py.eq List.length CHARGING_CONNECTION_STATUS_DICT
              CHARGING_STATUS_DICT]; lia);
    cbn [filter fst Py.eq CHARGING_CONNECTION_STATUS_DICT CHARGING_STATUS_DICT];
    repeat match goal with
           | |- context [String.eqb ?k s] =>
               destruct (String.eqb_spec k s) as [<- | _];
               [vm_compute; lia | ]
           end;
    cbn [List.length]; lia.
Qed.

(** X3. The API status sensor shows the label of the latest call code and
    never looks at its cached raw value: a code equal to 200 or 303 reads
    "OK", and a code that equals none of the five keys, [None] included,
    reads "Error". *)
Theorem api_status_state now device self :
  entity_description self = descr_api_status_code ->
  let code := get_latest_call_code device in
  (Py.eq (PInt 200) code = true \/ Py.eq (PInt 303) code = true ->
   state now device self = (Ok (PStr "OK"), self))
  /\ ((forall k label, In (k, label) API_STATUS_DICT -> Py.eq k code = false) ->
      state now device self = (Ok (PStr "Error"), self)).
Proof.
  intros Hd code.
  assert (E : state now device self
              = (Ok (Py.dict_get API_STATUS_DICT code (PStr "Error")), self)).
  { enter_state. rewrite Hd.
    rewrite (step_dict_some _ _ _ _ API_STATUS_DICT) by reflexivity.
    reflexivity. }
  rewrite E. split.
  - intros H. cbn [Py.dict_get API_STATUS_DICT].
    destruct (Py.eq (PInt 200) code); [reflexivity | ].
    destruct H as [H | H]; [discriminate H | ]. rewrite H. reflexivity.
  - intros H. rewrite dict_get_miss by exact H. reflexivity.
Qed.

Lemma api_status_state_witness :
  state sample_now (sample_device PNone PNone)
        (sample_sensor descr_api_status_code (PStr "stale"))
  = (Ok (PStr "OK"), sample_sensor descr_api_status_code (PStr "stale")).
Proof.
  apply (api_status_state sample_now (sample_device PNone PNone)
           (sample_sensor descr_api_status_code (PStr "stale")));
    [reflexivity | left; reflexivity].
Defined.

(** ** The token expiry *)

Lemma strftime_shape t :
  1000 <= Datetime.year t ->
  let text := Datetime.strftime_Ymd_HMS t in
  String.length text = 19%nat
  /\ String.get 4 text = Some "-"%char /\ String.get 7 text = Some "-"%char
  /\ String.get 10 text = Some " "%char
  /\ String.get 13 text = Some ":"%char /\ String.get 16 text = Some ":"%char.
Proof.
  unfold Datetime.year, Datetime.strftime_Ymd_HMS.
  destruct (Datetime.ord2ymd (Datetime.toordinal t)) as [[y m] d].
  cbn [fst]. intros Hy. unfold Datetime.year_str, Datetime.pad2.
  destruct (Z.leb_spec 1000 y); [ | lia].
  destruct (Z.leb_spec 100 y); [ | lia].
  destruct (Z.leb_spec 10 y); [ | lia].
  repeat split.
Qed.

(** X4. The token-expiry sensor never looks at its cached raw value and
    never raises: it reads [None] when the device knows no expiry, else the
    text [strftime("%Y-%m-%d %H:%M:%S")] gives for the expiry: the year, the
    month and the day of its date and its hour, minute and second, each of
    the last five on two digits; for a year of four digits the text has 19
    characters. *)
Theorem token_expiry_state now device self :
  entity_description self = descr_api_token_expires_at ->
  (get_token_expiry device = None -> state now device self = (Ok PNone, self))
  /\ (forall t y m d,
        get_token_expiry device = Some t ->
        Datetime.ord2ymd (Datetime.toordinal t) = (y, m, d) ->
        state now device self
        = (Ok (PStr (Datetime.year_str y ++ "-" ++ Datetime.pad2 m ++ "-"
                     ++ Datetime.pad2 d ++ " " ++ Datetime.pad2 (Datetime.hour t)
                     ++ ":" ++ Datetime.pad2 (Datetime.minute t)
                     ++ ":" ++ Datetime.pad2 (Datetime.second t))), self)
        /\ (1000 <= y ->
            String.length (Datetime.strftime_Ymd_HMS t) = 19%nat)).
Proof.
  intros Hd.
  assert (E : state now device self
              = (Ok match get_token_expiry device with
                    | None => PNone
                    | Some t => PStr (Datetime.strftime_Ymd_HMS t)
                    end, self)).
  { enter_state. rewrite Hd.
    rewrite step_dict_none, step_token by reflexivity. reflexivity. }
  rewrite E. split.
  - intros ->. reflexivity.
  - intros t y m d -> Hymd. split.
    + unfold Datetime.strftime_Ymd_HMS. rewrite Hymd. reflexivity.
    + intros Hy. apply strftime_shape. unfold Datetime.year. rewrite Hymd.
      exact Hy.
Qed.

Lemma token_expiry_state_witness :
  state sample_now (sample_device PNone PNone)
        (sample_sensor descr_api_token_expires_at (PInt 7))
  = (Ok (PStr "2024-01-15 11:00:00"),
     sample_sensor descr_api_token_expires_at (PInt 7)).
Proof.
  destruct (token_expiry_state sample_now (sample_device PNone PNone)
              (sample_sensor descr_api_token_expires_at (PInt 7)))
    as (_ & H).
  - reflexivity.
  - destruct (H (Datetime.mk 2024 1 15 11 0 0 0) 2024 1 15) as (E & _).
    + reflexivity.
    + reflexivity.
    + exact E.
Defined.

Example token_expiry_text :
  fst (state sample_now (sample_device PNone PNone)
         (sample_sensor descr_api_token_expires_at PNone))
  = Ok (PStr "2024-01-15 11:00:00").
Proof. reflexivity. Qed.

(** ** Sensors with no rule of their own *)

Lemma plain_table_not_battery d :
  In d POLESTAR_SENSOR_TYPES -> plain d = true ->
  (key d =? "battery_charge_level")%string = false.
Proof.
  intros Hin Hp. simpl in Hin.
  repeat (destruct Hin as [Hin | Hin];
          [rewrite <- Hin in Hp |- *; first [reflexivity | discriminate Hp] | ]).
  contradiction.
Qed.

(** X5. For every description of the table with no label dictionary,
    maximum, rounding or rule of its own (the trip meters, power, current,
    the VIN, the registration number, the model name, the timestamps),
    [state] returns the cached raw value as it is, a text or [False]
    included, never raises and leaves the entity as it is. *)
Theorem plain_table_state now device self d :
  In d POLESTAR_SENSOR_TYPES ->
  plain d = true ->
  entity_description self = d ->
  state now device self = (Ok (_attr_native_value self), self).
Proof.
  intros Hin Hp Hd. pose proof (plain_table_not_battery d Hin Hp) as Hb.
  rewrite <- Hd in Hp, Hb.
  destruct (plain_inv _ Hp) as (H1 & H2 & H3 & H4 & H5 & H6 & H7).
  enter_state.
  rewrite step_dict_none, step_token_skip, step_unknown by assumption.
  destruct (Py.is_None (_attr_native_value self)) eqn:Hn.
  - destruct (_attr_native_value self); try discriminate Hn. reflexivity.
  - rewrite step_battery_skip, step_max_none, step_charged_time_skip,
      step_full_range_skip, step_odometer_skip, step_round_none by assumption.
    reflexivity.
Qed.

Lemma plain_table_state_witness :
  state sample_now (sample_device PNone PNone)
        (sample_sensor descr_model_name (PStr "Polestar 2"))
  = (Ok (PStr "Polestar 2"), sample_sensor descr_model_name (PStr "Polestar 2")).
Proof.
  apply (plain_table_state sample_now (sample_device PNone PNone)
           (sample_sensor descr_model_name (PStr "Polestar 2")) descr_model_name).
  - do 17 right. left. reflexivity.
  - reflexivity.
  - reflexivity.
Defined.

(** ** Values within the maximum *)

(** X6. For the four descriptions that have a maximum and no other rule
    (the two remaining distances, the average speed, the charging time): a
    number that is not above the maximum, a negative one included, is
    returned as it is and the entity is left alone; a numeric string within
    the maximum is returned as the integer it converts to, which also
    replaces the cached string. *)
Theorem within_max_state now device self d m :
  In d [descr_estimate_distance_to_empty_miles; descr_estimate_distance_to_empty_km;
        descr_average_speed_km_per_hour;
        descr_estimated_charging_time_to_full_minutes] ->
  entity_description self = d ->
  max_value d = Some m ->
  (Py.isinstance_str (_attr_native_value self) = false ->
   Py.gt_int (_attr_native_value self) m = Ok false ->
   state now device self = (Ok (_attr_native_value self), self))
  /\ (forall s z, _attr_native_value self = PStr s ->
        PyStr.to_int s = Ok z -> z <= m ->
        state now device self = (Ok (PInt z), set_attr_native_value self (PInt z))).
Proof.
  intros Hin Hd Hmax.
  assert (K : dict_data d = None
              /\ (key d =? "api_token_expires_at")%string = false
              /\ (key d =? "battery_charge_level")%string = false
              /\ (key d =? "estimated_fully_charged_time")%string = false
              /\ existsb (String.eqb (key d))
                   ["estimate_full_charge_range"; "estimate_full_charge_range_miles"]
                 = false
              /\ PyStr.contains (key d) "current_odometer_meters" = false
              /\ round_digits d = None).
  { clear Hd Hmax. cbn [In] in Hin.
    decompose [or] Hin; try contradiction; subst d; repeat split. }
  rewrite <- Hd in K, Hmax. destruct K as (K1 & K2 & K3 & K4 & K5 & K6 & K7).
  split.
  - intros Hstr Hgt. enter_state.
    rewrite step_dict_none, step_token_skip, step_unknown by assumption.
    assert (Py.is_None (_attr_native_value self) = false) as ->
        by (destruct (_attr_native_value self); (reflexivity || discriminate Hgt)).
    rewrite step_battery_skip by assumption.
    rewrite (step_max_other _ _ _ m) by assumption. rewrite Hgt.
    rewrite step_charged_time_skip, step_full_range_skip, step_odometer_skip,
      step_round_none by assumption.
    reflexivity.
  - intros s z Hv Hz Hle. enter_state.
    rewrite step_dict_none, step_token_skip, step_unknown by assumption.
    rewrite Hv. cbn [Py.is_None].
    rewrite step_battery_skip by assumption.
    rewrite (step_max_str _ _ _ m s) by assumption. rewrite Hz.
    destruct (Z.ltb_spec m z); [lia | ].
    rewrite step_charged_time_skip, step_full_range_skip, step_odometer_skip,
      step_round_none by assumption.
    reflexivity.
Qed.

Lemma within_max_state_witness :
  state sample_now (sample_device PNone PNone)
        (sample_sensor descr_average_speed_km_per_hour (PStr " 87 "))
  = (Ok (PInt 87), sample_sensor descr_average_speed_km_per_hour (PInt 87)).
Proof.
  destruct (within_max_state sample_now (sample_device PNone PNone)
              (sample_sensor descr_average_speed_km_per_hour (PStr " 87 "))
              descr_average_speed_km_per_hour 150)
    as (_ & H).
  - do 2 right. left. reflexivity.
  - reflexivity.
  - reflexivity.
  - apply (H " 87 " 87); [reflexivity | reflexivity | lia].
Defined.

(** ** The battery level written with a trailing ".0" *)

Lemma replace_trailing_point_zero s :
  pointless s = true -> PyStr.replace (s ++ ".0") ".0" "" = s.
Proof.
  unfold PyStr.replace.
  induction s as [ | c s IH]; [reflexivity | ].
  cbn [pointless append PyStr.replace_from prefix].
  intros H. apply andb_prop in H. destruct H as [Hc Hs].
  destruct (ascii_dec "." c) as [<- | _]; [discriminate Hc | ].
  rewrite IH by exact Hs. reflexivity.
Qed.

(** X7. For the battery level, a cached text made of a numeral followed by
    ".0" reads as the integer of the numeral, which also replaces the cached
    text; above 100 the read is [None], the integer still being cached. *)
Theorem battery_level_trailing_zero now device self s z :
  entity_description self = descr_battery_charge_level ->
  PyStr.to_int s = Ok z ->
  _attr_native_value self = PStr (s ++ ".0") ->
  state now device self
  = (Ok (if 100 <? z then PNone else PInt z), set_attr_native_value self (PInt z)).
Proof.
  intros Hd Hz Hv. enter_state. rewrite Hd.
  rewrite step_dict_none, step_token_skip, step_unknown by reflexivity.
  rewrite Hv. cbn [Py.is_None].
  rewrite (step_battery_str _ _ _ (s ++ ".0")) by (reflexivity || assumption).
  rewrite (replace_trailing_point_zero s) by (eapply pointless_to_int, Hz).
  rewrite Hz.
  rewrite (step_max_other _ _ _ 100) by reflexivity.
  cbn [_attr_native_value set_attr_native_value Py.gt_int].
  destruct (100 <? z); [reflexivity | ].
  rewrite step_charged_time_skip, step_full_range_skip, step_odometer_skip
    by reflexivity.
  rewrite (step_round_int_zero _ _ _ z) by reflexivity. reflexivity.
Qed.

Lemma battery_level_trailing_zero_witness :
  state sample_now (sample_device PNone PNone)
        (sample_sensor descr_battery_charge_level (PStr "42.0"))
  = (Ok (PInt 42), sample_sensor descr_battery_charge_level (PInt 42)).
Proof.
  apply (battery_level_trailing_zero sample_now (sample_device PNone PNone)
           (sample_sensor descr_battery_charge_level (PStr "42.0")) "42" 42);
    reflexivity.
Defined.

(** ** The odometer, read again *)

Lemma odometer_read_int now device self x :
  entity_description self = descr_current_odometer_meters ->
  _attr_native_value self = PInt x ->
  state now device self =
  if 1000 <? x then
    match km_of_meters (PInt x) with
    | Ok km => (Ok km, set_attr_native_value self km)
    | Raise e => (Raise e, self)
    end
  else (Ok (PInt x), self).
Proof.
  intros Hd Hv. enter_state. rewrite Hd.
  rewrite step_dict_none, step_token_skip, step_unknown by reflexivity.
  rewrite Hv. cbn [Py.is_None].
  rewrite step_battery_skip, step_max_none, step_charged_time_skip,
    step_full_range_skip, step_odometer by reflexivity.
  rewrite Hv. cbn [Py.int].
  destruct (1000 <? x).
  - unfold km_of_meters, rbind.
    destruct (Py.truediv_int (PInt x) 1000) as [km | e]; [ | reflexivity].
    destruct (PyFloat.trunc km) as [q | e]; [ | reflexivity].
    rewrite (step_round_int_zero _ _ _ q) by reflexivity. reflexivity.
  - rewrite (step_round_int_zero _ _ _ x) by (reflexivity || assumption).
    reflexivity.
Qed.

(** X8. The odometer rule caches the kilometres it returns in place of the
    reading in meters, so the next read takes them for meters: after a first
    read of [x] above 1000 that gave [k], a second read returns [k] again
    only if [k] is at most 1000, and otherwise divides [k] by 1000 once
    more. *)
Theorem odometer_second_read now device self x k :
  entity_description self = descr_current_odometer_meters ->
  _attr_native_value self = PInt x ->
  1000 < x ->
  km_of_meters (PInt x) = Ok (PInt k) ->
  let self1 := snd (state now device self) in
  fst (state now device self) = Ok (PInt k)
  /\ _attr_native_value self1 = PInt k
  /\ (k <= 1000 -> state now device self1 = (Ok (PInt k), self1))
  /\ (1000 < k ->
      state now device self1 =
      match km_of_meters (PInt k) with
      | Ok km => (Ok km, set_attr_native_value self1 km)
      | Raise e => (Raise e, self1)
      end).
Proof.
  intros Hd Hv Hx Hk. cbv zeta.
  rewrite (odometer_read_int now device self x Hd Hv), Hk.
  destruct (Z.ltb_spec 1000 x); [ | lia]. cbn [fst snd].
  split; [reflexivity | split; [reflexivity | ]].
  pose proof (odometer_read_int now device (set_attr_native_value self (PInt k)) k
                Hd eq_refl) as E.
  split; intros Hk'; rewrite E.
  - destruct (Z.ltb_spec 1000 k); [lia | reflexivity].
  - destruct (Z.ltb_spec 1000 k); [reflexivity | lia].
Qed.

Lemma odometer_second_read_witness :
  state sample_now (sample_device PNone PNone)
        (snd (state sample_now (sample_device PNone PNone)
                (sample_sensor descr_current_odometer_meters (PInt 1500000))))
  = (Ok (PInt 1), sample_sensor descr_current_odometer_meters (PInt 1)).
Proof.
  destruct (odometer_second_read sample_now (sample_device PNone PNone)
              (sample_sensor descr_current_odometer_meters (PInt 1500000))
              1500000 1500)
    as (_ & _ & _ & H).
  - reflexivity.
  - reflexivity.
  - lia.
  - reflexivity.
  - apply H. lia.
Defined.

(** X9. An odometer reading cached as a numeric string above 1000 is
    compared as an integer and then divided as the string it is: [state]
    raises [TypeError] and leaves the entity as it is. *)
Theorem odometer_string_reading now device self s n :
  entity_description self = descr_current_odometer_meters ->
  _attr_native_value self = PStr s ->
  PyStr.to_int s = Ok n ->
  1000 < n ->
  state now device self = (Raise TypeError, self).
Proof.
  intros Hd Hv Hn Hx. enter_state. rewrite Hd.
  rewrite step_dict_none, step_token_skip, step_unknown by reflexivity.
  rewrite Hv. cbn [Py.is_None].
  rewrite step_battery_skip, step_max_none, step_charged_time_skip,
    step_full_range_skip, step_odometer by reflexivity.
  rewrite Hv. cbn [Py.int]. rewrite Hn.
  destruct (Z.ltb_spec 1000 n); [reflexivity | lia].
Qed.

Lemma odometer_string_reading_witness :
  state sample_now (sample_device PNone PNone)
        (sample_sensor descr_current_odometer_meters (PStr "1500"))
  = (Raise TypeError, sample_sensor descr_current_odometer_meters (PStr "1500")).
Proof.
  apply (odometer_string_reading sample_now (sample_device PNone PNone)
           (sample_sensor descr_current_odometer_meters (PStr "1500")) "1500" 1500);
    [reflexivity | reflexivity | reflexivity | lia].
Defined.

(** ** The native value *)

(** X10. [native_value] rounds what [state] returns, to the digits of the
    description or to two, and assigns what [state] assigns: a float comes
    back as the float [round] gives (2.675 as 2.67); an integer or a bool
    comes back as an integer, the same one when the digit count is not
    negative; [None], a text or a timestamp, as [state] returns for an
    unknown value, a label or "Not charging", raises [TypeError]; and what
    [state] raises, [native_value] raises. *)
Theorem native_value_of_state now device self :
  let digits := match round_digits (entity_description self) with
                | Some digits => digits
                | None => 2
                end in
  (forall f, fst (state now device self) = Ok (PFloat f) ->
     fst (native_value now device self)
     = match PyFloat.round_ndigits f digits with
       | Ok r => Ok (PFloat r)
       | Raise e => Raise e
       end)
  /\ (forall z, fst (state now device self) = Ok (PInt z) ->
        fst (native_value now device self) = Ok (PInt (Py.round_int z digits))
        /\ (0 <= digits -> Py.round_int z digits = z))
  /\ (forall b, fst (state now device self) = Ok (PBool b) ->
        fst (native_value now device self)
        = Ok (PInt (Py.round_int (Py.of_bool b) digits))
        /\ (0 <= digits -> Py.round_int (Py.of_bool b) digits = Py.of_bool b))
  /\ (forall v, fst (state now device self) = Ok v ->
        match v with PNone | PStr _ | PDatetime _ => True | _ => False end ->
        fst (native_value now device self) = Raise TypeError)
  /\ (forall e, fst (state now device self) = Raise e ->
        fst (native_value now device self) = Raise e)
  /\ snd (native_value now device self) = snd (state now device self).
Proof.
  cbv zeta. unfold native_value.
  pose proof (state_keeps_description now device self) as Hd.
  destruct (state now device self) as [r self1]. cbn [fst snd] in *.
  rewrite Hd.
  assert (Hround : forall z digits, 0 <= digits -> Py.round_int z digits = z).
  { intros z digits H. unfold Py.round_int.
    destruct (Z.leb_spec 0 digits); [reflexivity | lia]. }
  split; [ | split; [ | split; [ | split; [ | split]]]].
  - intros f ->.
    destruct (round_digits (entity_description self)); reflexivity.
  - intros z ->. split; [ | apply Hround].
    destruct (round_digits (entity_description self)); reflexivity.
  - intros b ->. split; [ | apply Hround].
    destruct (round_digits (entity_description self)); reflexivity.
  - intros v -> Hv.
    destruct (round_digits (entity_description self));
      destruct v; try contradiction; reflexivity.
  - intros e ->.
    destruct (round_digits (entity_description self)); reflexivity.
  - destruct r; destruct (round_digits (entity_description self)); reflexivity.
Qed.

Lemma native_value_of_state_witness :
  fst (native_value sample_now (sample_device PNone PNone)
         (sample_sensor descr_charging_power_watts
            (PFloat (PyFloat.of_ratio false 2675 1000))))
  = Ok (PFloat (PyFloat.of_ratio false 267 100)).
Proof.
  destruct (native_value_of_state sample_now (sample_device PNone PNone)
              (sample_sensor descr_charging_power_watts
                 (PFloat (PyFloat.of_ratio false 2675 1000))))
    as (H & _).
  rewrite (H (PyFloat.of_ratio false 2675 1000)); reflexivity.
Defined.

(** The native value of a sensor that holds nothing yet. *)
Example native_value_unknown :
  fst (native_value sample_now (sample_device PNone PNone)
         (sample_sensor descr_charging_power_watts PNone))
  = Raise TypeError.
Proof. reflexivity. Qed.

Example native_value_battery :
  fst (native_value sample_now (sample_device PNone PNone)
         (sample_sensor descr_battery_charge_level (PStr "85.0")))
  = Ok (PInt 85).
Proof. reflexivity. Qed.

(** ** Construction *)

Lemma init_failure DOMAIN device d e :
  __init__ DOMAIN device d = Raise e ->
  Py.eq (get_latest_call_code device) (PInt 200) = true
  /\ get_value device (query d) (field_name d)
       (existsb (String.eqb (key d)) ["vin"; "registration_number"; "model_name"])
     = Raise e.
Proof.
  unfold __init__, _async_update_attrs, get_skip_cache.
  cbn [description query field_name key].
  destruct (Py.eq (get_latest_call_code device) (PInt 200)); [ | discriminate].
  destruct (get_value device _ _ _) as [v | e']; cbn [rbind];
    [discriminate | ].
  intros H. split; [reflexivity | congruence].
Qed.

(** X11. [__init__] reads the value of its field only when the latest call
    code equals 200, skipping the cache for the VIN, the registration number
    and the model name only: with any other code the sensor is built holding
    [None] whatever the read would do; with 200 it holds the value read; and
    [__init__] raises exactly when the code equals 200 and the read raises. *)
Theorem init_outcome DOMAIN device d :
  let read := get_value device (query d) (field_name d)
                (existsb (String.eqb (key d))
                         ["vin"; "registration_number"; "model_name"]) in
  (Py.eq (get_latest_call_code device) (PInt 200) = false ->
   exists self, __init__ DOMAIN device d = Ok self
                /\ _attr_native_value self = PNone)
  /\ (Py.eq (get_latest_call_code device) (PInt 200) = true ->
      forall v, read = Ok v ->
      exists self, __init__ DOMAIN device d = Ok self
                   /\ _attr_native_value self = v)
  /\ (forall e, __init__ DOMAIN device d = Raise e <->
                Py.eq (get_latest_call_code device) (PInt 200) = true
                /\ read = Raise e).
Proof.
  cbv zeta. unfold __init__, _async_update_attrs, get_skip_cache.
  cbn [description query field_name key].
  destruct (Py.eq (get_latest_call_code device) (PInt 200)).
  - split; [discriminate | split].
    + intros _ v ->. cbn [rbind]. eexists. split; reflexivity.
    + intros e. destruct (get_value device _ _ _) as [v | e']; cbn [rbind]; split.
      * discriminate.
      * intros [_ H]. discriminate H.
      * intros H. split; [reflexivity | congruence].
      * intros [_ H]. congruence.
  - split; [ | split].
    + intros _. eexists. split; reflexivity.
    + discriminate.
    + intros e. split; [discriminate | intros [H _]; discriminate H].
Qed.

Lemma init_outcome_witness :
  exists self,
    __init__ "polestar_api" offline_device descr_vin = Ok self
    /\ _attr_native_value self = PNone.
Proof.
  destruct (init_outcome "polestar_api" offline_device descr_vin) as (H & _).
  apply H. reflexivity.
Defined.

(** X12. A sensor built while the latest call code is not 200 can be read at
    once: for every description [__init__] succeeds, the sensor holds
    [None], and [state] returns without raising and leaves it as it is. *)
Theorem fresh_sensor_state DOMAIN now device d :
  Py.eq (get_latest_call_code device) (PInt 200) = false ->
  exists self r,
    __init__ DOMAIN device d = Ok self
    /\ _attr_native_value self = PNone
    /\ state now device self = (Ok r, self).
Proof.
  intros Hcode. unfold __init__. rewrite Hcode.
  eexists.
  match goal with
  | |- exists r, Ok ?s = Ok _ /\ _ =>
      assert (H : exists r, state now device s = (Ok r, s))
  end.
  { enter_state. cbn [entity_description].
    destruct (dict_data d) as [dd | ] eqn:Hdict.
    { rewrite (step_dict_some _ _ _ _ dd) by assumption. eexists. reflexivity. }
    rewrite step_dict_none by assumption.
    destruct (key d =? "api_token_expires_at")%string eqn:Hk.
    { rewrite step_token by assumption. eexists. reflexivity. }
    rewrite step_token_skip, step_unknown by assumption.
    eexists. reflexivity. }
  destruct H as [r H]. exists r. repeat split. exact H.
Qed.

Lemma fresh_sensor_state_witness :
  exists self r,
    __init__ "polestar_api" offline_device descr_api_status_code = Ok self
    /\ _attr_native_value self = PNone
    /\ state sample_now offline_device self = (Ok r, self).
Proof.
  apply (fresh_sensor_state "polestar_api" sample_now offline_device
           descr_api_status_code).
  reflexivity.
Defined.

(** ** The outcomes of the update cycle and of the set-up *)

Lemma append_cancel_l (a x y : string) : a ++ x = a ++ y -> x = y.
Proof.
  induction a as [ | c a IH]; simpl; intros H; [exact H | ].
  injection H as H. now apply IH.
Qed.

Lemma NoDup_map_injective {A B : Type} (f : A -> B) (l : list A) :
  (forall x y, f x = f y -> x = y) -> NoDup l -> NoDup (map f l).
Proof.
  intros Hf. induction 1 as [ | k keys Hk Hkeys IH]; cbn [map]; constructor;
    [ | exact IH].
  intros Hin. apply in_map_iff in Hin. destruct Hin as (y & E & Hy).
  apply Hf in E. subst y. contradiction.
Qed.

(** The keys of the table are pairwise distinct. *)
Lemma table_keys_NoDup : NoDup (map key POLESTAR_SENSOR_TYPES).
Proof.
  cbn [map POLESTAR_SENSOR_TYPES].
  repeat (constructor; [cbn [In key]; unfold not; intros H; decompose [or] H;
                        (discriminate || contradiction) | ]).
  constructor.
Qed.

Lemma new_sensors_descriptions DOMAIN device ds sensors :
  new_sensors DOMAIN device ds = Ok sensors ->
  map entity_description sensors = ds
  /\ map _attr_unique_id sensors
     = map (fun d => "polestar_" ++ PyStr.slice_from (-4) (vin device) ++ "-" ++ key d) ds.
Proof.
  revert sensors. induction ds as [ | d ds IH]; intros sensors H.
  - injection H as <-. split; reflexivity.
  - cbn [new_sensors] in H. unfold rbind in H.
    destruct (__init__ DOMAIN device d) as [s | e] eqn:Hs; [ | discriminate H].
    destruct (new_sensors DOMAIN device ds) as [rest | e]; [ | discriminate H].
    injection H as <-. destruct (IH rest eq_refl) as [IH1 IH2].
    destruct (init_attributes _ _ _ _ Hs) as [E1 E2].
    cbn [map]. rewrite IH1, IH2, E1, E2. split; reflexivity.
Qed.

Lemma new_sensors_failure DOMAIN device ds e :
  new_sensors DOMAIN device ds = Raise e ->
  exists d, In d ds /\ __init__ DOMAIN device d = Raise e.
Proof.
  induction ds as [ | d ds IH]; [discriminate | ].
  cbn [new_sensors]. unfold rbind.
  destruct (__init__ DOMAIN device d) as [s | e'] eqn:Hs.
  - destruct (new_sensors DOMAIN device ds) as [rest | e']; [discriminate | ].
    intros H. injection H as ->. destruct (IH eq_refl) as (d' & Hin & Hd').
    exists d'. split; [now right | exact Hd'].
  - intros H. injection H as ->. exists d. split; [now left | exact Hs].
Qed.

Lemma new_sensors_offline DOMAIN device ds :
  Py.eq (get_latest_call_code device) (PInt 200) = false ->
  exists sensors,
    new_sensors DOMAIN device ds = Ok sensors
    /\ Forall (fun s => _attr_native_value s = PNone) sensors.
Proof.
  intros Hcode. induction ds as [ | d ds (rest & IH & Hnone)].
  - exists []. split; [reflexivity | constructor].
  - cbn [new_sensors]. unfold __init__ at 1. rewrite Hcode, IH. cbn [rbind].
    eexists. split; [reflexivity | ]. constructor; [reflexivity | exact Hnone].
Qed.

Section Outcomes.

Variable refresh : Polestar -> result Datatypes.unit * Polestar.

(** X13. [async_update] ends in one of three ways, whatever the device
    does: it returns with the value read from the refreshed device cached and
    nothing logged; or it returns with the sensor as it was, one warning
    logged and the next refresh set 60 seconds ahead; or it raises an
    exception that is not of class [Exception], with the sensor as it was,
    nothing logged and no cooldown set. *)
Theorem async_update_outcomes now device log self outcome device' log' self' :
  Datetime.in_range (now + 60 * Datetime.us_per_second) = true ->
  async_update refresh now device log self = (outcome, (device', log', self')) ->
  (outcome = Ok tt /\ log' = log /\ device' = snd (refresh device)
   /\ get_value device' (query (description self))
                (field_name (description self)) (get_skip_cache self)
      = Ok (_attr_native_value self')
   /\ self' = set_attr_native_value self (_attr_native_value self'))
  \/ (outcome = Ok tt
      /\ log' = (log ++ [(WARNING, "Failed to update sensor async update")])%list
      /\ self' = self
      /\ device' = set_next_update (snd (refresh device))
                     (now + 60 * Datetime.us_per_second))
  \/ (exists e, outcome = Raise e /\ isinstance_Exception e = false
                /\ log' = log /\ self' = self /\ device' = snd (refresh device)).
Proof.
  intros Hrange. unfold async_update, async_update_try.
  change (delta <- Datetime.mk_timedelta 0 60;; Datetime.add now delta)%result
    with (Datetime.add now (60 * Datetime.us_per_second)).
  unfold Datetime.add. rewrite Hrange.
  destruct (refresh device) as [[u | e] device1]; cbn [snd].
  - destruct (get_value device1 _ _ _) as [v | e] eqn:Hv.
    + intros H. injection H as <- <- <- <-. left.
      cbn [_attr_native_value set_attr_native_value]. now repeat split.
    + destruct (isinstance_Exception e) eqn:He; intros H;
        injection H as <- <- <- <-.
      * right. left. now repeat split.
      * right. right. exists e. now repeat split.
  - destruct (isinstance_Exception e) eqn:He; intros H;
      injection H as <- <- <- <-.
    + right. left. now repeat split.
    + right. right. exists e. now repeat split.
Qed.

(** X14. When [async_setup_entry] hands sensors to the host, there is one
    per description of the table, in the table's order, and both the unique
    ids the host reads and the stored ones are pairwise distinct; when the
    refresh of the device raises, the set-up raises the same and hands over
    nothing. *)
Theorem async_setup_entry_sensors DOMAIN device :
  (forall e, fst (refresh device) = Raise e ->
             fst (async_setup_entry refresh DOMAIN device) = Raise e)
  /\ (forall sensors,
         fst (async_setup_entry refresh DOMAIN device) = Ok sensors ->
         map entity_description sensors = POLESTAR_SENSOR_TYPES
         /\ NoDup (map (unique_id (snd (refresh device))) sensors)
         /\ NoDup (map _attr_unique_id sensors)).
Proof.
  unfold async_setup_entry.
  destruct (refresh device) as [[u | e] device1]; cbn [fst snd].
  - split; [discriminate | ].
    intros sensors H.
    destruct (new_sensors_descriptions _ _ _ _ H) as [H1 H2].
    split; [exact H1 | split].
    + unfold unique_id.
      rewrite <- (map_map entity_description
                    (fun d => id device1 ++ "-" ++ key d)), H1.
      rewrite <- (map_map key (fun k => id device1 ++ "-" ++ k)).
      apply NoDup_map_injective; [ | apply table_keys_NoDup].
      intros x y E. now apply append_cancel_l, append_cancel_l in E.
    + rewrite H2.
      rewrite <- (map_map key (fun k => "polestar_" ++ PyStr.slice_from (-4) (vin device1) ++ "-" ++ k)).
      apply NoDup_map_injective; [ | apply table_keys_NoDup].
      intros x y E.
      now apply append_cancel_l, append_cancel_l, append_cancel_l in E.
  - split; [intros e' H; congruence | discriminate].
Qed.

(** X15. Up to the hand-over of the sensors, [async_setup_entry] raises only
    what the refresh of the device raises or, the latest call code being 200,
    what the read of the field of some description raises; when the refresh
    succeeds and the code is not 200, all the sensors are built, and every
    sensor handed over holds [None]. *)
Theorem async_setup_entry_failure DOMAIN device :
  (forall e, fst (async_setup_entry refresh DOMAIN device) = Raise e ->
     fst (refresh device) = Raise e
     \/ (Py.eq (get_latest_call_code (snd (refresh device))) (PInt 200) = true
         /\ exists d, In d POLESTAR_SENSOR_TYPES
                      /\ get_value (snd (refresh device)) (query d) (field_name d)
                           (existsb (String.eqb (key d))
                                    ["vin"; "registration_number"; "model_name"])
                         = Raise e))
  /\ ((exists u, fst (refresh device) = Ok u) ->
      Py.eq (get_latest_call_code (snd (refresh device))) (PInt 200) = false ->
      exists sensors,
        fst (async_setup_entry refresh DOMAIN device) = Ok sensors
        /\ Forall (fun s => _attr_native_value s = PNone) sensors).
Proof.
  unfold async_setup_entry.
  destruct (refresh device) as [[u | e0] device1]; cbn [fst snd].
  - split.
    + intros e H. right.
      destruct (new_sensors_failure _ _ _ _ H) as (d & Hin & Hd).
      destruct (init_failure _ _ _ _ Hd) as [Hcode Hread].
      split; [exact Hcode | ]. exists d. split; assumption.
    + intros _ Hcode. apply new_sensors_offline, Hcode.
  - split.
    + intros e H. left. congruence.
    + intros [u Hu]. discriminate Hu.
Qed.

End Outcomes.

Lemma async_update_outcomes_witness :
  (Ok tt = Ok tt /\ @nil (log_level * string) = []
   /\ sample_device PNone (PInt 42) = snd (quiet_refresh (sample_device PNone (PInt 42)))
   /\ get_value (sample_device PNone (PInt 42))
        (query descr_charging_power_watts) (field_name descr_charging_power_watts)
        false
      = Ok (PInt 42)
   /\ sample_sensor descr_charging_power_watts (PInt 42)
      = set_attr_native_value (sample_sensor descr_charging_power_watts (PInt 7))
          (PInt 42))
  \/ (Ok tt = Ok tt
      /\ @nil (log_level * string)
         = ([] ++ [(WARNING, "Failed to update sensor async update")])%list
      /\ sample_sensor descr_charging_power_watts (PInt 42)
         = sample_sensor descr_charging_power_watts (PInt 7)
      /\ sample_device PNone (PInt 42)
         = set_next_update (snd (quiet_refresh (sample_device PNone (PInt 42))))
             (sample_now + 60 * Datetime.us_per_second))
  \/ (exists e, Ok tt = Raise e /\ isinstance_Exception e = false
                /\ @nil (log_level * string) = []
                /\ sample_sensor descr_charging_power_watts (PInt 42)
                   = sample_sensor descr_charging_power_watts (PInt 7)
                /\ sample_device PNone (PInt 42)
                   = snd (quiet_refresh (sample_device PNone (PInt 42)))).
Proof.
  apply (async_update_outcomes quiet_refresh sample_now
           (sample_device PNone (PInt 42)) []
           (sample_sensor descr_charging_power_watts (PInt 7))
           (Ok tt) (sample_device PNone (PInt 42)) []
           (sample_sensor descr_charging_power_watts (PInt 42)));
    reflexivity.
Defined.

Lemma async_setup_entry_sensors_witness :
  exists sensors,
    fst (async_setup_entry quiet_refresh "polestar_api" offline_device) = Ok sensors
    /\ map entity_description sensors = POLESTAR_SENSOR_TYPES
    /\ NoDup (map (unique_id (snd (quiet_refresh offline_device))) sensors)
    /\ NoDup (map _attr_unique_id sensors).
Proof.
  eexists. split; [reflexivity | ].
  apply (async_setup_entry_sensors quiet_refresh "polestar_api" offline_device).
  reflexivity.
Defined.

Lemma async_setup_entry_failure_witness :
  exists sensors,
    fst (async_setup_entry quiet_refresh "polestar_api" offline_device) = Ok sensors
    /\ Forall (fun s => _attr_native_value s = PNone) sensors.
Proof.
  apply (async_setup_entry_failure quiet_refresh "polestar_api" offline_device).
  - exists tt. reflexivity.
  - reflexivity.
Defined.

(** ** The final rounding of a float *)

(** X16. The two descriptions that round to zero digits, the battery level
    and the odometer, drop the decimals of an integer only: a float reading
    that the earlier rules let through (a battery level not above 100, an
    odometer whose integer part is at most 1000) is returned as the float
    [round(f, 0)], never as an integer, and the entity is left as it is. *)
Theorem float_reading_state now device self f :
  _attr_native_value self = PFloat f ->
  (entity_description self = descr_battery_charge_level
   /\ PyFloat.gtb_Z f 100 = false)
  \/ (entity_description self = descr_current_odometer_meters
      /\ exists n, PyFloat.trunc f = Ok n /\ n <= 1000) ->
  state now device self =
  match PyFloat.round_ndigits f 0 with
  | Ok r => (Ok (PFloat r), self)
  | Raise e => (Raise e, self)
  end.
Proof.
  intros Hv [[Hd Hgt] | [Hd (n & Hn & Hle)]]; enter_state; rewrite Hd.
  - rewrite step_dict_none, step_token_skip, step_unknown by reflexivity.
    rewrite Hv. cbn [Py.is_None].
    rewrite step_battery_other by (rewrite ?Hv; reflexivity).
    rewrite (step_max_other _ _ _ 100) by (rewrite ?Hv; reflexivity).
    rewrite Hv. cbn [Py.gt_int]. rewrite Hgt.
    rewrite step_charged_time_skip, step_full_range_skip, step_odometer_skip
      by reflexivity.
    rewrite (round_rule_float _ self f) by (reflexivity || assumption).
    destruct (PyFloat.round_ndigits f 0); reflexivity.
  - rewrite step_dict_none, step_token_skip, step_unknown by reflexivity.
    rewrite Hv. cbn [Py.is_None].
    rewrite step_battery_skip, step_max_none, step_charged_time_skip,
      step_full_range_skip, step_odometer by reflexivity.
    rewrite Hv. cbn [Py.int]. rewrite Hn.
    destruct (Z.ltb_spec 1000 n); [lia | ].
    rewrite (round_rule_float _ self f) by (reflexivity || assumption).
    destruct (PyFloat.round_ndigits f 0); reflexivity.
Qed.

Lemma float_reading_state_witness :
  state sample_now (sample_device PNone PNone)
        (sample_sensor descr_battery_charge_level
           (PFloat (PyFloat.of_ratio false 169 2)))
  = (Ok (PFloat (PyFloat.of_ratio false 84 1)),
     sample_sensor descr_battery_charge_level
       (PFloat (PyFloat.of_ratio false 169 2))).
Proof.
  rewrite (float_reading_state sample_now (sample_device PNone PNone)
             (sample_sensor descr_battery_charge_level
                (PFloat (PyFloat.of_ratio false 169 2)))
             (PyFloat.of_ratio false 169 2)).
  - reflexivity.
  - reflexivity.
  - left. split; reflexivity.
Defined.
